(** * The shadcn date picker: selection state machine and calendar grid

    A shallow embedding of the [DatePicker] component (React, TypeScript)
    and of the part of the JavaScript [Date] object and of date-fns that the
    component calls, followed by the properties of the calendar grid, of the
    two-click range protocol, of the duo-mode switch, of the reset handler
    and of the value-synchronisation effect, and then by further properties
    of month navigation, of the years view, of range membership, of the
    displayed text and of the values a mounted picker emits. *)

From Stdlib Require Import ZArith List Bool Lia.
From Stdlib Require String.
Import ListNotations.
Import String.StringSyntax.
Local Open Scope Z_scope.
Delimit Scope string_scope with string.

(** ** The JavaScript date object

    A [Date] is its time value: a number of milliseconds counted from
    1970-01-01T00:00.  The component only reads dates through the local-time
    accessors, so the time value is taken in local time, for a zone whose
    offset does not change (no daylight-saving shifts).  Only valid dates are
    modelled (no [NaN] time value), and the time value is not clipped at the
    8.64e15 ms of ECMA-262.

    The day arithmetic is the one of ECMA-262, section "Date Objects":
    [Day], [DaysInYear], [DayFromYear], [YearFromTime], [MonthFromTime],
    [DateFromTime], [WeekDay], [MakeDay] and [MakeDate]. *)

Module JsDate.

Definition Date : Type := Z.

Definition msPerDay : Z := 86400000.

Definition Day (t : Z) : Z := t / msPerDay.

Definition TimeWithinDay (t : Z) : Z := t mod msPerDay.

Definition isLeapYear (y : Z) : bool :=
  (y mod 4 =? 0) && (negb (y mod 100 =? 0) || (y mod 400 =? 0)).

Definition DaysInYear (y : Z) : Z := if isLeapYear y then 366 else 365.

Definition DayFromYear (y : Z) : Z :=
  365 * (y - 1970) + (y - 1969) / 4 - (y - 1901) / 100 + (y - 1601) / 400.

(** ECMA-262 defines the year of a day as the largest [y] whose first day is
    not after it.  It is computed here from the mean length of a year
    (146097 days every 400 years), which is at most one year off. *)
Definition YearFromDay (d : Z) : Z :=
  let y := 1970 + (d * 400) / 146097 in
  if d <? DayFromYear y then y - 1
  else if DayFromYear (y + 1) <=? d then y + 1
  else y.

Definition YearFromTime (t : Z) : Z := YearFromDay (Day t).

Definition DayWithinYear (t : Z) : Z := Day t - DayFromYear (YearFromTime t).

Definition InLeapYear (t : Z) : Z :=
  if isLeapYear (YearFromTime t) then 1 else 0.

(** Number of days of the year before month [m] (0 = January), [l] being 1
    in a leap year and 0 otherwise: the thresholds of [MonthFromTime]. *)
Definition monthStart (l m : Z) : Z :=
  match m with
  | 0 => 0
  | 1 => 31
  | 2 => 59 + l
  | 3 => 90 + l
  | 4 => 120 + l
  | 5 => 151 + l
  | 6 => 181 + l
  | 7 => 212 + l
  | 8 => 243 + l
  | 9 => 273 + l
  | 10 => 304 + l
  | _ => 334 + l
  end.

Definition monthOfYearDay (l d : Z) : Z :=
  if d <? 31 then 0
  else if d <? 59 + l then 1
  else if d <? 90 + l then 2
  else if d <? 120 + l then 3
  else if d <? 151 + l then 4
  else if d <? 181 + l then 5
  else if d <? 212 + l then 6
  else if d <? 243 + l then 7
  else if d <? 273 + l then 8
  else if d <? 304 + l then 9
  else if d <? 334 + l then 10
  else 11.

Definition MonthFromTime (t : Z) : Z :=
  monthOfYearDay (InLeapYear t) (DayWithinYear t).

Definition DateFromTime (t : Z) : Z :=
  DayWithinYear t - monthStart (InLeapYear t) (MonthFromTime t) + 1.

Definition WeekDay (t : Z) : Z := (Day t + 4) mod 7.

(** [MakeDay year month date]: the month may lie outside 0..11 and the date
    outside the month; both carry over. *)
Definition MakeDay (year month date : Z) : Z :=
  let ym := year + month / 12 in
  let mn := month mod 12 in
  DayFromYear ym + monthStart (if isLeapYear ym then 1 else 0) mn + date - 1.

Definition MakeDate (day time : Z) : Z := day * msPerDay + time.

(** *** Methods of [Date] used by the component and by date-fns *)

Definition getTime (d : Date) : Z := d.
Definition getFullYear (d : Date) : Z := YearFromTime d.
Definition getMonth (d : Date) : Z := MonthFromTime d.
Definition getDate (d : Date) : Z := DateFromTime d.
Definition getDay (d : Date) : Z := WeekDay d.

(** [new Date(year, monthIndex, day)]: local midnight of that day; a year
    from 0 to 99 stands for 1900 + year. *)
Definition newDate (year monthIndex day : Z) : Date :=
  let yr := if (0 <=? year) && (year <=? 99) then 1900 + year else year in
  MakeDate (MakeDay yr monthIndex day) 0.

(** [d.setFullYear(year, month, date)], [d.setDate(date)] and
    [d.setHours(0, 0, 0, 0)], each returning the date after the update. *)
Definition setFullYear (d : Date) (year month date : Z) : Date :=
  MakeDate (MakeDay year month date) (TimeWithinDay d).

Definition setDate (d : Date) (date : Z) : Date :=
  MakeDate (MakeDay (YearFromTime d) (MonthFromTime d) date) (TimeWithinDay d).

Definition setHours0 (d : Date) : Date := MakeDate (Day d) 0.

End JsDate.

Import JsDate.

(** ** The functions of date-fns that the component imports and the claims
    reach.  Each follows the library's implementation on [Date]. *)

Module DateFns.

Definition startOfDay (d : Date) : Date := setHours0 d.

Definition startOfMonth (d : Date) : Date := setHours0 (setDate d 1).

(** [getDaysInMonth] starts from [new Date(0)] and sets it to day 0 of the
    next month, which is the last day of this one. *)
Definition epoch : Date := 0.

Definition getDaysInMonth (d : Date) : Z :=
  let year := getFullYear d in
  let monthIndex := getMonth d in
  getDate (setHours0 (setFullYear epoch year (monthIndex + 1) 0)).

Definition getDay (d : Date) : Z := JsDate.getDay d.

Definition isAfter (d dateToCompare : Date) : bool :=
  getTime dateToCompare <? getTime d.

Definition isSameDay (l r : Date) : bool :=
  getTime (startOfDay l) =? getTime (startOfDay r).

End DateFns.

Import DateFns.

(** ** The component: data *)

Inductive Modes : Type := Duo | Single | Range.

(** A property of an object literal: the key is absent, or it is present and
    holds a date or [undefined] (what ['from' in value] tells apart). *)
Inductive Field : Type :=
| absent
| holds (v : option Date).

Definition read (f : Field) : option Date :=
  match f with
  | absent => None
  | holds v => v
  end.

Record DateRangeValue : Type := { from : Field; to : Field }.

Inductive DateValue : Type :=
| ofDate (d : Date)
| ofRange (r : DateRangeValue).

Inductive View : Type := days | years.

(** The properties the claims reach.  [onReset] tells whether the consumer
    passed a reset handler. *)
Record Props : Type := {
  mode : Modes;
  defaultValue : option DateValue;
  value : option DateValue;
  onReset : bool
}.

(** The state cells of the component, one per [React.useState]. *)
Record State : Type := {
  selectedDate : option DateValue;
  currentMonth : DateValue;
  isOpen : bool;
  view : View;
  isRangeMode : bool;
  rangeStart : option Date;
  rangeEnd : option Date;
  rangeHover : option Date
}.

(** The calls a handler makes to the consumer's callbacks, in order.
    [onValueChange] and [onModeChange] are called through [?.]: the call is
    recorded here and reaches the consumer when the callback was passed. *)
Inductive Call : Type :=
| call_onValueChange (v : option DateValue)
| call_onModeChange (m : Modes)
| call_onReset.

(** A value used as a condition: a date or an object is truthy,
    [undefined] is not. *)
Definition truthy {A : Type} (o : option A) : bool :=
  match o with
  | Some _ => true
  | None => false
  end.

(** *** Statements of a handler

    A handler reads the state of the render that created it and queues
    updates; the next render sees all of them.  A statement maps the pending
    state and the calls made so far to the next ones. *)

Definition Stmt : Type := State * list Call -> State * list Call.

Definition run (st : State) (body : list Stmt) : State * list Call :=
  fold_left (fun acc s => s acc) body (st, []).

Definition call (c : Call) : Stmt := fun '(st, cs) => (st, cs ++ [c]).

Definition skip : Stmt := fun acc => acc.

Definition setSelectedDate (v : option DateValue) : Stmt :=
  fun '(st, cs) =>
    ({| selectedDate := v; currentMonth := currentMonth st;
        isOpen := isOpen st; view := view st; isRangeMode := isRangeMode st;
        rangeStart := rangeStart st; rangeEnd := rangeEnd st;
        rangeHover := rangeHover st |}, cs).

Definition setCurrentMonth (v : DateValue) : Stmt :=
  fun '(st, cs) =>
    ({| selectedDate := selectedDate st; currentMonth := v;
        isOpen := isOpen st; view := view st; isRangeMode := isRangeMode st;
        rangeStart := rangeStart st; rangeEnd := rangeEnd st;
        rangeHover := rangeHover st |}, cs).

Definition setIsOpen (v : bool) : Stmt :=
  fun '(st, cs) =>
    ({| selectedDate := selectedDate st; currentMonth := currentMonth st;
        isOpen := v; view := view st; isRangeMode := isRangeMode st;
        rangeStart := rangeStart st; rangeEnd := rangeEnd st;
        rangeHover := rangeHover st |}, cs).

Definition setIsRangeMode (v : bool) : Stmt :=
  fun '(st, cs) =>
    ({| selectedDate := selectedDate st; currentMonth := currentMonth st;
        isOpen := isOpen st; view := view st; isRangeMode := v;
        rangeStart := rangeStart st; rangeEnd := rangeEnd st;
        rangeHover := rangeHover st |}, cs).

Definition setRangeStart (v : option Date) : Stmt :=
  fun '(st, cs) =>
    ({| selectedDate := selectedDate st; currentMonth := currentMonth st;
        isOpen := isOpen st; view := view st; isRangeMode := isRangeMode st;
        rangeStart := v; rangeEnd := rangeEnd st;
        rangeHover := rangeHover st |}, cs).

Definition setRangeEnd (v : option Date) : Stmt :=
  fun '(st, cs) =>
    ({| selectedDate := selectedDate st; currentMonth := currentMonth st;
        isOpen := isOpen st; view := view st; isRangeMode := isRangeMode st;
        rangeStart := rangeStart st; rangeEnd := v;
        rangeHover := rangeHover st |}, cs).

Definition setRangeHover (v : option Date) : Stmt :=
  fun '(st, cs) =>
    ({| selectedDate := selectedDate st; currentMonth := currentMonth st;
        isOpen := isOpen st; view := view st; isRangeMode := isRangeMode st;
        rangeStart := rangeStart st; rangeEnd := rangeEnd st;
        rangeHover := v |}, cs).

(** ** The component: operations *)

(** The state of the first render: [now] is the value of [new Date()]. *)
Definition initialState (p : Props) (now : Date) : State :=
  {| selectedDate := defaultValue p;
     currentMonth :=
       match value p, defaultValue p with
       | Some v, _ => v
       | None, Some v => v
       | None, None => ofDate now
       end;
     isOpen := false;
     view := days;
     isRangeMode := match mode p with Range => true | _ => false end;
     rangeStart := None;
     rangeEnd := None;
     rangeHover := None |}.

(** [typeof v] for a value of type [DateValue]: dates and object literals
    are both objects. *)
Inductive JsType : Type := js_object | js_other.

Definition typeof (v : DateValue) : JsType :=
  match v with
  | ofDate _ => js_object
  | ofRange _ => js_object
  end.

(** ['from' in v]: a [Date] has no such property. *)
Definition has_from (v : DateValue) : bool :=
  match v with
  | ofDate _ => false
  | ofRange r => match from r with absent => false | holds _ => true end
  end.

(** [v.from] and [v.to]: [undefined] on a date and for an absent key. *)
Definition get_from (v : DateValue) : option Date :=
  match v with
  | ofDate _ => None
  | ofRange r => read (from r)
  end.

Definition get_to (v : DateValue) : option Date :=
  match v with
  | ofDate _ => None
  | ofRange r => read (to r)
  end.

(** The date stored by [setRangeStart(value)] in the first branch of the
    effect, which is typed for a [value] that is not an object. *)
Definition asDate (v : DateValue) : option Date :=
  match v with
  | ofDate d => Some d
  | ofRange _ => None
  end.

(** The effect that follows the [value] property (it runs after the first
    render and after each render that changed [value]). *)
Definition valueEffect (value : option DateValue) (st : State) : State :=
  match value with
  | None => st
  | Some v =>
      match typeof v with
      | js_other =>
          fst (run st [setRangeStart (asDate v); setRangeEnd None])
      | js_object =>
          if has_from v
          then fst (run st [setRangeStart (get_from v); setRangeEnd (get_to v)])
          else st
      end
  end.

(** The state once the component is mounted: the first render, then the
    effect. *)
Definition mounted (p : Props) (now : Date) : State :=
  valueEffect (value p) (initialState p now).

Definition handleSelect (st : State) (day : Date) : State * list Call :=
  if negb (isRangeMode st) then
    run st [setSelectedDate (Some (ofDate day));
            setCurrentMonth (ofDate day);
            call (call_onValueChange (Some (ofDate day)));
            setIsOpen false]
  else if negb (truthy (rangeStart st))
          || (truthy (rangeStart st) && truthy (rangeEnd st)) then
    run st [setRangeStart (Some day);
            setRangeEnd None;
            setRangeHover None]
  else
    match rangeStart st, rangeEnd st with
    | Some start, None =>
        let isAfterStart := isAfter day start in
        run st ((if isAfterStart
                 then [setRangeEnd (Some day)]
                 else [setRangeEnd (Some start); setRangeStart (Some day)])
                ++ [call (call_onValueChange (Some (ofRange
                      {| from := holds (Some (if isAfterStart then start else day));
                         to := holds (Some (if isAfterStart then day else start)) |})));
                    setIsOpen false])
    | _, _ => (st, [])
    end.

Definition handleDayHover (st : State) (day : Date) : State * list Call :=
  if isRangeMode st && truthy (rangeStart st) && negb (truthy (rangeEnd st))
  then run st [setRangeHover (Some day)]
  else (st, []).

(** A counting loop [for (let i = lo; i < hi; i++) body]: [n] is the number
    of turns, [hi - lo] when positive and none otherwise. *)
Fixpoint forLoop {A : Type} (n : nat) (i : Z) (body : Z -> A -> A) (acc : A) : A :=
  match n with
  | O => acc
  | S n' => forLoop n' (i + 1) body (body i acc)
  end.

Definition push {A : Type} (x : A) (l : list A) : list A := l ++ [x].

(** The date the calendar is drawn for:
    [currentMonth instanceof Date ? currentMonth : new Date()]. *)
Definition cursor (now : Date) (currentMonth : DateValue) : Date :=
  match currentMonth with
  | ofDate d => d
  | ofRange _ => now
  end.

(** The cells of the month: [None] is the [null] of an empty cell. *)
Definition calendarDays (now : Date) (currentMonth : DateValue) : list (option Date) :=
  let daysInMonth := getDaysInMonth (cursor now currentMonth) in
  let startDay := DateFns.getDay (startOfMonth (cursor now currentMonth)) in
  let days0 : list (option Date) := [] in
  let days1 :=
    forLoop (Z.to_nat (startDay - 0)) 0 (fun _ => push None) days0 in
  forLoop (Z.to_nat (daysInMonth + 1 - 1)) 1
    (fun day =>
       push (Some (newDate (getFullYear (cursor now currentMonth))
                           (getMonth (cursor now currentMonth)) day)))
    days1.

(** The markers of the two ends of the range.  The guard [!day] of the
    source never holds: [day] is a date, which is truthy. *)
Definition isRangeStart (st : State) (day : Date) : bool :=
  if negb (isRangeMode st) || negb (truthy (rangeStart st)) then false
  else
    match rangeStart st with
    | Some start => isSameDay day start
    | None => false
    end.

Definition isRangeEnd (st : State) (day : Date) : bool :=
  if negb (isRangeMode st) || negb (truthy (rangeEnd st)) then false
  else
    match rangeEnd st with
    | Some finish => isSameDay day finish
    | None => false
    end.

Definition handleReset (p : Props) (st : State) : State * list Call :=
  if negb (onReset p) then (st, [])
  else
    run st ((if negb (isRangeMode st)
             then [setSelectedDate None;
                   call (call_onValueChange None)]
             else [setRangeStart None;
                   setRangeEnd None;
                   setRangeHover None;
                   call (call_onValueChange (Some (ofRange
                     {| from := holds None; to := holds None |})))])
            ++ [call call_onReset]).

(** The handler of the range-mode switch, which is drawn in duo mode only. *)
Definition onCheckedChange (st : State) (isChecked : bool) : State * list Call :=
  run st ([setIsRangeMode isChecked]
          ++ (if isChecked
              then [call (call_onValueChange
                            match rangeStart st, rangeEnd st with
                            | Some s, Some e =>
                                Some (ofRange {| from := holds (Some s);
                                                 to := holds (Some e) |})
                            | _, _ => None
                            end);
                    match rangeStart st with
                    | Some s => setCurrentMonth (ofDate s)
                    | None => skip
                    end]
              else [call (call_onValueChange (selectedDate st));
                    match selectedDate st with
                    | Some v => setCurrentMonth v
                    | None => skip
                    end])
          ++ [call (call_onModeChange (if isChecked then Range else Single))]).

(** The command of the switch: without the switch (modes single and range)
    nothing happens. *)
Definition setRangeMode (p : Props) (st : State) (isChecked : bool)
  : State * list Call :=
  match mode p with
  | Duo => onCheckedChange st isChecked
  | _ => (st, [])
  end.

(** ** Definitions used in the statements *)

(** The length of a month by the Gregorian rule, written from the rule and
    not from the code: thirty days for April, June, September and November,
    twenty-eight or twenty-nine for February, thirty-one for the others.
    Months are numbered from 0. *)
Definition daysOfMonth (year month : Z) : Z :=
  match month with
  | 1 => if isLeapYear year then 29 else 28
  | 3 | 5 | 8 | 10 => 30
  | _ => 31
  end.

(** The day numbers [lo], [lo + 1], ... ([n] of them). *)
Fixpoint daysFrom (lo : Z) (n : nat) : list Z :=
  match n with
  | O => []
  | S n' => lo :: daysFrom (lo + 1) n'
  end.

(** Day 1 of the month of [d], at midnight, and its weekday. *)
Definition firstOfMonth (d : Date) : Date :=
  MakeDate (MakeDay (getFullYear d) (getMonth d) 1) 0.

(** The states of a range selection, read off the two committed cells.  A
    state with an end and no start is none of them (only a [value] property
    such as [{from: undefined, to: d}] produces it). *)
Inductive RangeState : Type :=
| Empty
| StartSelected (start : Date)
| Complete (start finish : Date).

Definition rangeState (st : State) : option RangeState :=
  match rangeStart st, rangeEnd st with
  | None, None => Some Empty
  | Some s, None => Some (StartSelected s)
  | Some s, Some e => Some (Complete s e)
  | None, Some _ => None
  end.

Definition emptyOrComplete (st : State) : Prop :=
  rangeState st = Some Empty
  \/ exists s e, rangeState st = Some (Complete s e).

(** User events on the day buttons, and the handlers run one after the
    other, each on the state the previous one left. *)
Inductive Event : Type :=
| Click (day : Date)
| Hover (day : Date).

Definition fire (st : State) (ev : Event) : State * list Call :=
  match ev with
  | Click day => handleSelect st day
  | Hover day => handleDayHover st day
  end.

Fixpoint fireAll (st : State) (evs : list Event) : State * list Call :=
  match evs with
  | [] => (st, [])
  | ev :: rest =>
      let (st1, calls1) := fire st ev in
      let (st2, calls2) := fireAll st1 rest in
      (st2, calls1 ++ calls2)
  end.

(** The panel is opened and closed through [onOpenChange = setIsOpen]. *)
Definition onOpenChange (st : State) (open : bool) : State * list Call :=
  run st [setIsOpen open].

(** A picker in range mode, just opened, with nothing selected. *)
Definition rangePicker : Props :=
  {| mode := Range; defaultValue := None; value := None; onReset := false |}.

Definition rangePickerOpened : State :=
  fst (onOpenChange (mounted rangePicker (newDate 2024 2 1)) true).

(** Two states that differ at most in the hover preview. *)
Definition sameButHover (st1 st2 : State) : Prop :=
  selectedDate st1 = selectedDate st2
  /\ currentMonth st1 = currentMonth st2
  /\ isOpen st1 = isOpen st2
  /\ view st1 = view st2
  /\ isRangeMode st1 = isRangeMode st2
  /\ rangeStart st1 = rangeStart st2
  /\ rangeEnd st1 = rangeEnd st2.

(** The end point that [isRangeEnd] would test if the hover preview
    counted: the committed end or, while only a start is selected, the
    hovered day.  Written from the claim, to be compared with the code. *)
Definition endPointWithPreview (st : State) : option Date :=
  match rangeEnd st with
  | Some e => Some e
  | None =>
      match rangeStart st with
      | Some _ => rangeHover st
      | None => None
      end
  end.

(** A picker in duo mode, and its state once 2024-01-01 has been chosen by
    a click in single mode: a single value and no range progress. *)
Definition duoPicker : Props :=
  {| mode := Duo; defaultValue := None; value := None; onReset := true |}.

Definition duoWithSingle : State :=
  fst (fireAll (mounted duoPicker (newDate 2024 2 1))
         [Click (newDate 2024 0 1)]).

(** The value passed to [onValueChange] when the switch is turned on: the
    range when both ends are committed, [undefined] otherwise. *)
Definition completeRange (st : State) : option DateValue :=
  match rangeState st with
  | Some (Complete s e) =>
      Some (ofRange {| from := holds (Some s); to := holds (Some e) |})
  | _ => None
  end.

(** ** The rest of the component: navigation, views, display *)

(** *** More of [Date] and of date-fns *)

(** [d.setMonth(month, date)] and [d.setFullYear(year)] (the month and the
    day of the month are kept, and carry over when the day does not exist in
    the new year). *)
Definition Date_setMonth (d : Date) (month date : Z) : Date :=
  MakeDate (MakeDay (YearFromTime d) month date) (TimeWithinDay d).

Definition Date_setFullYear (d : Date) (year : Z) : Date :=
  MakeDate (MakeDay year (MonthFromTime d) (DateFromTime d)) (TimeWithinDay d).

(** [addMonths]: the last day of the month aimed at is day 0 of the month
    after it; the day of the month is kept when that month has it and is the
    last day of the month otherwise. *)
Definition addMonths (d : Date) (amount : Z) : Date :=
  if amount =? 0 then d
  else
    let dayOfMonth := getDate d in
    let endOfDesiredMonth := Date_setMonth d (getMonth d + amount + 1) 0 in
    let daysInMonth := getDate endOfDesiredMonth in
    if daysInMonth <=? dayOfMonth then endOfDesiredMonth
    else setFullYear d (getFullYear endOfDesiredMonth)
           (getMonth endOfDesiredMonth) dayOfMonth.

Definition subMonths (d : Date) (amount : Z) : Date := addMonths d (- amount).

Definition setYear (d : Date) (year : Z) : Date := Date_setFullYear d year.

(** [setMonth] of date-fns: the length of the month is read off its 15th
    day, and the day of the month is cut down to it. *)
Definition setMonth (d : Date) (month : Z) : Date :=
  let year := getFullYear d in
  let day := getDate d in
  let midMonth := setHours0 (setFullYear epoch year month 15) in
  let daysInMonth := getDaysInMonth midMonth in
  Date_setMonth d month (Z.min day daysInMonth).

(** [endOfDay]: [setHours(23, 59, 59, 999)]. *)
Definition endOfDay (d : Date) : Date := MakeDate (Day d) (msPerDay - 1).

(** [isWithinInterval(date, {start, end})], both ends included.  date-fns 3
    and 4 put the two ends in order first; date-fns 2 throws when the start
    is after the end.  The properties below are about intervals whose start
    is not after their end, where all of them agree. *)
Definition isWithinInterval (d start finish : Date) : bool :=
  let startTime := Z.min (getTime start) (getTime finish) in
  let endTime := Z.max (getTime start) (getTime finish) in
  (startTime <=? getTime d) && (getTime d <=? endTime).

(** *** Navigation and views *)

Definition setView (v : View) : Stmt :=
  fun '(st, cs) =>
    ({| selectedDate := selectedDate st; currentMonth := currentMonth st;
        isOpen := isOpen st; view := v; isRangeMode := isRangeMode st;
        rangeStart := rangeStart st; rangeEnd := rangeEnd st;
        rangeHover := rangeHover st |}, cs).

(** In the handlers below [now] is the value of [new Date()] when the
    handler runs; it is read when [currentMonth] is not a date. *)
Definition previousMonth (now : Date) (st : State) : State * list Call :=
  run st [setCurrentMonth (ofDate (subMonths (cursor now (currentMonth st)) 1))].

Definition nextMonth (now : Date) (st : State) : State * list Call :=
  run st [setCurrentMonth (ofDate (addMonths (cursor now (currentMonth st)) 1))].

Definition toggleView (st : State) : State * list Call :=
  run st [setView (match view st with days => years | years => days end)].

Definition handleMonthSelect (now : Date) (st : State) (year monthIndex : Z)
  : State * list Call :=
  let newCursor :=
    setMonth (setYear (cursor now (currentMonth st)) year) monthIndex in
  run st [setCurrentMonth (ofDate newCursor); setView days].

(** [Array.from({ length }, (_, i) => f(i))]. *)
Definition arrayFrom {A : Type} (len : Z) (f : Z -> A) : list A :=
  map f (daysFrom 0 (Z.to_nat len)).

(** The list [years] of the source (the name is taken by the view). *)
Definition yearsShown : list Z :=
  arrayFrom (2050 - 1950 + 1) (fun i => 1950 + i).

(** The twelve month buttons of a year, by index. *)
Definition monthIndexes : list Z := daysFrom 0 12.

Definition currentYear (now : Date) (st : State) : Z :=
  getFullYear (cursor now (currentMonth st)).

Definition currentMonthIndex (now : Date) (st : State) : Z :=
  getMonth (cursor now (currentMonth st)).

(** The variant of the button of month [index] of [year] in the years view:
    [true] for ['default'] (the highlighted one), [false] for ['outline']. *)
Definition monthButtonIsDefault (now : Date) (st : State) (year index : Z) : bool :=
  (index =? currentMonthIndex now st) && (year =? currentYear now st).

(** The buttons of the years view, in the order they are drawn. *)
Definition monthButtons : list (Z * Z) :=
  flat_map (fun year => map (fun index => (year, index)) monthIndexes)
    yearsShown.

(** *** Range membership *)

Definition isInRange (st : State) (day : Date) : bool :=
  if negb (isRangeMode st) then false
  else
    match rangeStart st, rangeEnd st with
    | Some start, Some finish =>
        isWithinInterval day (startOfDay start) (endOfDay finish)
    | _, _ =>
        match rangeStart st, rangeHover st with
        | Some start, Some hover =>
            let isHoverAfterStart := isAfter hover start in
            isWithinInterval day
              (startOfDay (if isHoverAfterStart then start else hover))
              (endOfDay (if isHoverAfterStart then hover else start))
        | _, _ => false
        end
    end.

(** The highlight of the selected day in single mode (the class list of a
    day button). *)
Definition isSelectedDay (now : Date) (st : State) (day : Date) : bool :=
  negb (isRangeMode st)
  && match selectedDate st with
     | Some v => isSameDay day (cursor now v)
     | None => false
     end.

(** *** Display *)

(** [format] stands for date-fns' [format(date, pattern)], whose output
    depends on the locale.  An absent or empty [placeholder] gives the
    default text (an empty string is falsy). *)
Definition placeholderText (placeholder : option String.string) (st : State)
  : String.string :=
  match placeholder with
  | Some (String.String c rest) => String.String c rest
  | _ =>
      String.append "Pick a "%string
        (if isRangeMode st then "date range"%string else "date"%string)
  end.

Definition formatDisplayText
    (format : Date -> String.string -> String.string) (now : Date)
    (placeholder : option String.string) (st : State) : String.string :=
  if negb (isRangeMode st) then
    match selectedDate st with
    | Some v => format (cursor now v) "PPP"%string
    | None => placeholderText placeholder st
    end
  else
    match rangeStart st, rangeEnd st with
    | Some start, Some finish =>
        String.append (format start "PP"%string)
          (String.append " - "%string (format finish "PP"%string))
    | Some start, None =>
        String.append (format start "PP"%string) " - ?"%string
    | None, _ => placeholderText placeholder st
    end.

(** The trigger is greyed (class [text-muted-foreground]) under this
    condition. *)
Definition triggerMuted (st : State) : bool :=
  (negb (isRangeMode st) && negb (truthy (selectedDate st)))
  || (isRangeMode st && negb (truthy (rangeStart st))).



(** *** The demo page

    [formatDateText] of [App.tsx], which renders the value a picker passed
    to [onValueChange]: it throws on a range that lacks an end. *)
Inductive Thrown : Type := Invalid_date.

Definition formatDateText
    (format : Date -> String.string -> String.string)
    (date : option DateValue) (placeholder : String.string)
  : String.string + Thrown :=
  match date with
  | None => inl placeholder
  | Some (ofDate d) => inl (format d "PPP"%string)
  | Some (ofRange r) =>
      match read (from r), read (to r) with
      | Some f, Some t =>
          inl (String.append (format f "PPP"%string)
                 (String.append " - "%string (format t "PP"%string)))
      | _, _ => inr Invalid_date
      end
  end.

(** *** All the interactions

    What the user and the consumer can do to a mounted picker: the handlers
    above, the switch (in duo mode), the Clear button, the panel, and a new
    [value] property followed by its effect. *)
Inductive Command : Type :=
| SelectDay (day : Date)
| HoverDay (day : Date)
| PreviousMonth (now : Date)
| NextMonth (now : Date)
| ToggleView
| SelectMonth (now : Date) (year monthIndex : Z)
| Switch (isChecked : bool)
| ClickClear
| OpenChange (open : bool)
| NewValue (v : option DateValue).

Definition step (p : Props) (st : State) (c : Command) : State * list Call :=
  match c with
  | SelectDay day => handleSelect st day
  | HoverDay day => handleDayHover st day
  | PreviousMonth now => previousMonth now st
  | NextMonth now => nextMonth now st
  | ToggleView => toggleView st
  | SelectMonth now year monthIndex => handleMonthSelect now st year monthIndex
  | Switch isChecked => setRangeMode p st isChecked
  | ClickClear => handleReset p st
  | OpenChange open => onOpenChange st open
  | NewValue v => (valueEffect v st, [])
  end.

Fixpoint steps (p : Props) (st : State) (cs : list Command) : State * list Call :=
  match cs with
  | [] => (st, [])
  | c :: rest =>
      let (st1, calls1) := step p st c in
      let (st2, calls2) := steps p st1 rest in
      (st2, calls1 ++ calls2)
  end.

(** The values passed to [onValueChange] among a list of calls. *)
Definition valuesChanged (calls : list Call) : list (option DateValue) :=
  flat_map (fun c => match c with
                     | call_onValueChange v => [v]
                     | _ => []
                     end) calls.


(** A value that [formatDateText] renders: nothing, a date, or a range with
    both ends. *)
Definition rendered (v : option DateValue) : bool :=
  match v with
  | None => true
  | Some (ofDate _) => true
  | Some (ofRange r) => truthy (read (from r)) && truthy (read (to r))
  end.

(** *** Definitions used in the further statements *)



(** A controlled range picker with a reset handler: every value it emits
    comes back as its [value] property. *)
Definition resettableRangePicker : Props :=
  {| mode := Range; defaultValue := None; value := None; onReset := true |}.

(** A session of that picker: a range is chosen backwards, echoed by the
    consumer, another one is chosen in the next month, then cleared. *)
Definition aSession : list Command :=
  [OpenChange true;
   SelectDay (newDate 2024 2 10); HoverDay (newDate 2024 2 3);
   SelectDay (newDate 2024 2 5);
   NewValue (Some (ofRange {| from := holds (Some (newDate 2024 2 5));
                              to := holds (Some (newDate 2024 2 10)) |}));
   OpenChange true; NextMonth (newDate 2024 2 1);
   SelectDay (newDate 2024 3 2); SelectDay (newDate 2024 3 2);
   ClickClear;
   NewValue (Some (ofRange {| from := holds None; to := holds None |}))].

(** The values a picker in single mode passes on: a date or [undefined];
    and those a picker in range mode passes on: an object with both keys,
    holding two dates or [undefined] twice. *)
Definition singlePayload (v : option DateValue) : bool :=
  match v with
  | None => true
  | Some (ofDate _) => true
  | Some (ofRange _) => false
  end.

Definition rangePayload (v : option DateValue) : bool :=
  match v with
  | Some (ofRange {| from := holds (Some _); to := holds (Some _) |}) => true
  | Some (ofRange {| from := holds None; to := holds None |}) => true
  | _ => false
  end.

Definition anyCommand (c : Command) : Prop := True.

(** A picker in single mode with a reset handler, and the duo picker of the
    demo page, which passes no reset handler. *)
Definition singlePicker : Props :=
  {| mode := Single; defaultValue := None; value := None; onReset := true |}.

Definition demoDuoPicker : Props :=
  {| mode := Duo; defaultValue := None; value := None; onReset := false |}.

(** * Properties *)

(** ** Facts about the day arithmetic *)

Section DayArithmetic.

Lemma isLeapYear_true (y : Z) :
  isLeapYear y = true <-> y mod 4 = 0 /\ (y mod 100 <> 0 \/ y mod 400 = 0).
Proof.
  unfold isLeapYear.
  rewrite andb_true_iff, orb_true_iff, negb_true_iff, !Z.eqb_eq, Z.eqb_neq.
  tauto.
Qed.

Lemma isLeapYear_false (y : Z) :
  isLeapYear y = false <-> y mod 4 <> 0 \/ (y mod 100 = 0 /\ y mod 400 <> 0).
Proof.
  unfold isLeapYear.
  rewrite andb_false_iff, orb_false_iff, negb_false_iff, !Z.eqb_eq, !Z.eqb_neq.
  tauto.
Qed.

Lemma DayFromYear_succ (y : Z) :
  DayFromYear (y + 1) = DayFromYear y + DaysInYear y.
Proof.
  unfold DaysInYear, DayFromYear.
  destruct (isLeapYear y) eqn:L.
  - apply isLeapYear_true in L. Z.to_euclidean_division_equations. lia.
  - apply isLeapYear_false in L. Z.to_euclidean_division_equations. lia.
Qed.

Lemma DayFromYear_lt (y1 y2 : Z) : y1 < y2 -> DayFromYear y1 < DayFromYear y2.
Proof.
  unfold DayFromYear. intros H. Z.to_euclidean_division_equations. lia.
Qed.

Lemma YearFromDay_bounds (d : Z) :
  DayFromYear (YearFromDay d) <= d < DayFromYear (YearFromDay d + 1).
Proof.
  unfold YearFromDay.
  set (y := 1970 + d * 400 / 146097).
  assert (Hlo : DayFromYear (y - 1) <= d).
  { subst y. unfold DayFromYear. Z.to_euclidean_division_equations. lia. }
  assert (Hhi : d < DayFromYear (y + 1 + 1)).
  { subst y. unfold DayFromYear. Z.to_euclidean_division_equations. lia. }
  cbv zeta.
  destruct (d <? DayFromYear y) eqn:E1.
  - apply Z.ltb_lt in E1. replace (y - 1 + 1) with y by lia. lia.
  - apply Z.ltb_ge in E1.
    destruct (DayFromYear (y + 1) <=? d) eqn:E2.
    + apply Z.leb_le in E2. lia.
    + apply Z.leb_gt in E2. lia.
Qed.

Lemma YearFromDay_unique (d y : Z) :
  DayFromYear y <= d < DayFromYear (y + 1) -> YearFromDay d = y.
Proof.
  intros [Hlo Hhi].
  pose proof (YearFromDay_bounds d) as [Blo Bhi].
  destruct (Z.lt_trichotomy (YearFromDay d) y) as [Hlt | [Heq | Hgt]]; trivial.
  - assert (H : YearFromDay d + 1 = y \/ YearFromDay d + 1 < y) by lia.
    destruct H as [H | H].
    + rewrite H in Bhi. lia.
    + apply DayFromYear_lt in H. lia.
  - assert (H : y + 1 = YearFromDay d \/ y + 1 < YearFromDay d) by lia.
    destruct H as [H | H].
    + rewrite H in Hhi. lia.
    + apply DayFromYear_lt in H. lia.
Qed.

Lemma Day_MakeDate (day time : Z) :
  0 <= time < msPerDay -> Day (MakeDate day time) = day.
Proof.
  intros H. unfold Day, MakeDate, msPerDay in *.
  Z.to_euclidean_division_equations. lia.
Qed.

Lemma TimeWithinDay_range (t : Z) : 0 <= TimeWithinDay t < msPerDay.
Proof. unfold TimeWithinDay, msPerDay. apply Z.mod_pos_bound. lia. Qed.

Lemma monthOfYearDay_range (l d : Z) : 0 <= monthOfYearDay l d <= 11.
Proof.
  unfold monthOfYearDay.
  repeat match goal with |- context [if ?c then _ else _] => destruct c end; lia.
Qed.

Lemma getMonth_range (d : Date) : 0 <= getMonth d <= 11.
Proof. apply monthOfYearDay_range. Qed.

End DayArithmetic.

Lemma daysOfMonth_range (year month : Z) : 28 <= daysOfMonth year month <= 31.
Proof.
  unfold daysOfMonth.
  repeat match goal with |- context [match ?c with _ => _ end] => destruct c end; lia.
Qed.

Section CivilDates.

Variables year month : Z.
Hypothesis month_range : 0 <= month <= 11.

Let leap : Z := if isLeapYear year then 1 else 0.

Lemma MakeDay_in_year (date : Z) :
  MakeDay year month date = DayFromYear year + monthStart leap month + date - 1.
Proof.
  unfold MakeDay, leap.
  replace (month / 12) with 0 by (Z.to_euclidean_division_equations; lia).
  replace (month mod 12) with month by (Z.to_euclidean_division_equations; lia).
  rewrite Z.add_0_r. reflexivity.
Qed.

Ltac each_month :=
  assert (Hm : month = 0 \/ month = 1 \/ month = 2 \/ month = 3 \/ month = 4
               \/ month = 5 \/ month = 6 \/ month = 7 \/ month = 8
               \/ month = 9 \/ month = 10 \/ month = 11) by lia;
  repeat (destruct Hm as [Hm | Hm]).

Lemma monthStart_next :
  monthStart leap month + daysOfMonth year month =
  if month =? 11 then 365 + leap else monthStart leap (month + 1).
Proof.
  unfold leap.
  each_month; rewrite Hm; cbv beta iota delta [daysOfMonth];
    destruct (isLeapYear year); reflexivity.
Qed.

Lemma monthOfYearDay_start (date : Z) :
  1 <= date <= daysOfMonth year month ->
  monthOfYearDay leap (monthStart leap month + date - 1) = month.
Proof.
  unfold leap. intros H.
  each_month; rewrite Hm in *;
    cbv beta iota delta [monthStart daysOfMonth monthOfYearDay] in *;
    destruct (isLeapYear year);
    repeat match goal with
           | |- context [if ?a <? ?b then _ else _] =>
               destruct (Z.ltb_spec a b); try lia
           end; reflexivity.
Qed.

Lemma month_within_year (date : Z) :
  1 <= date <= daysOfMonth year month ->
  0 <= monthStart leap month + date - 1 < DaysInYear year.
Proof.
  unfold leap, DaysInYear. intros H.
  each_month; rewrite Hm in *;
    cbv beta iota delta [monthStart daysOfMonth] in *;
    destruct (isLeapYear year); lia.
Qed.

(** A day given by year, month and day of the month is read back as such. *)
Lemma civil_fields (date time : Z) :
  1 <= date <= daysOfMonth year month ->
  0 <= time < msPerDay ->
  let t := MakeDate (MakeDay year month date) time in
  getFullYear t = year /\ getMonth t = month /\ getDate t = date.
Proof.
  intros Hd Ht t.
  pose proof (month_within_year date Hd) as Hw.
  assert (HD : Day t = DayFromYear year + monthStart leap month + date - 1).
  { unfold t. rewrite Day_MakeDate by assumption. apply MakeDay_in_year. }
  assert (HY : YearFromTime t = year).
  { unfold YearFromTime. apply YearFromDay_unique.
    rewrite HD, DayFromYear_succ. lia. }
  assert (HW : DayWithinYear t = monthStart leap month + date - 1).
  { unfold DayWithinYear. rewrite HY, HD. lia. }
  assert (HL : InLeapYear t = leap).
  { unfold InLeapYear. rewrite HY. reflexivity. }
  assert (HM : MonthFromTime t = month).
  { unfold MonthFromTime. rewrite HL, HW. apply monthOfYearDay_start, Hd. }
  repeat split; trivial.
  unfold getDate, DateFromTime. rewrite HW, HL, HM. lia.
Qed.

(** Day 0 of the following month is the last day of this month. *)
Lemma MakeDay_day_zero :
  MakeDay year (month + 1) 0 = MakeDay year month (daysOfMonth year month).
Proof.
  rewrite (MakeDay_in_year (daysOfMonth year month)).
  pose proof monthStart_next as N.
  unfold MakeDay.
  destruct (Z.eq_dec month 11) as [E | E].
  - rewrite E in *.
    change ((11 + 1) / 12) with 1. change ((11 + 1) mod 12) with 0.
    change (11 =? 11) with true in N. cbv iota in N.
    rewrite DayFromYear_succ. unfold DaysInYear, leap in *.
    change (monthStart (if isLeapYear (year + 1) then 1 else 0) 0) with 0.
    destruct (isLeapYear year); lia.
  - replace (month =? 11) with false in N by (symmetry; apply Z.eqb_neq, E).
    replace ((month + 1) / 12) with 0 by (Z.to_euclidean_division_equations; lia).
    replace ((month + 1) mod 12) with (month + 1)
      by (Z.to_euclidean_division_equations; lia).
    rewrite !Z.add_0_r. fold leap. lia.
Qed.

End CivilDates.

(** Every year and month is the year and month of some date, for instance
    of the first day of that month. *)
Lemma every_month_has_a_date (year month : Z) :
  0 <= month <= 11 ->
  exists d : Date, getFullYear d = year /\ getMonth d = month.
Proof.
  intros Hm. exists (MakeDate (MakeDay year month 1) 0).
  pose proof (daysOfMonth_range year month) as HN.
  destruct (civil_fields year month Hm 1 0) as (Hy & Hmo & _);
    [| unfold msPerDay | split; assumption]; lia.
Qed.

(** The model on known dates: 1970-01-01 was a Thursday, 2024-03-10 a
    Sunday; 1900 was not a leap year, 2000 and 2024 were. *)
Example known_weekdays :
  JsDate.getDay (newDate 1970 0 1) = 4
  /\ JsDate.getDay (newDate 2024 2 10) = 0
  /\ JsDate.getDay (newDate 2024 2 1) = 5.
Proof. vm_compute. repeat split. Qed.

Example known_dates :
  (getFullYear (newDate 2024 2 10), getMonth (newDate 2024 2 10),
   getDate (newDate 2024 2 10)) = (2024, 2, 10)
  /\ (getFullYear (newDate 1969 11 31), getMonth (newDate 1969 11 31),
      getDate (newDate 1969 11 31)) = (1969, 11, 31)
  /\ getTime (newDate 2024 2 1) = 1709251200000.
Proof. vm_compute. repeat split. Qed.

Example known_februaries :
  getDaysInMonth (newDate 1900 1 10) = 28
  /\ getDaysInMonth (newDate 2000 1 10) = 29
  /\ getDaysInMonth (newDate 2023 1 10) = 28
  /\ getDaysInMonth (newDate 2024 1 10) = 29.
Proof. vm_compute. repeat split. Qed.

(** ** Facts about the date-fns functions *)

Section DateFnsFacts.

Lemma getDaysInMonth_daysOfMonth (d : Date) :
  getDaysInMonth d = daysOfMonth (getFullYear d) (getMonth d).
Proof.
  unfold getDaysInMonth. cbv zeta.
  pose proof (getMonth_range d) as Hm.
  pose proof (daysOfMonth_range (getFullYear d) (getMonth d)) as Hn.
  unfold setHours0, setFullYear.
  rewrite Day_MakeDate by apply TimeWithinDay_range.
  rewrite MakeDay_day_zero by assumption.
  apply (civil_fields (getFullYear d) (getMonth d) Hm
           (daysOfMonth (getFullYear d) (getMonth d)) 0); unfold msPerDay; lia.
Qed.

Lemma startOfMonth_first_day (d : Date) :
  startOfMonth d = MakeDate (MakeDay (getFullYear d) (getMonth d) 1) 0.
Proof.
  unfold startOfMonth, setHours0, setDate.
  rewrite Day_MakeDate by apply TimeWithinDay_range. reflexivity.
Qed.

Lemma WeekDay_range (t : Z) : 0 <= WeekDay t <= 6.
Proof. unfold WeekDay. Z.to_euclidean_division_equations. lia. Qed.

(** The weekday advances by one from a day to the next, Saturday (6) being
    followed by Sunday (0); 1970-01-01 was a Thursday (4). *)
Lemma WeekDay_next_day (day : Z) :
  WeekDay (MakeDate (day + 1) 0) = (WeekDay (MakeDate day 0) + 1) mod 7.
Proof.
  unfold WeekDay. rewrite !Day_MakeDate by (unfold msPerDay; lia).
  Z.to_euclidean_division_equations. lia.
Qed.

Lemma isSameDay_Day (l r : Date) : isSameDay l r = (Day l =? Day r).
Proof.
  unfold isSameDay, startOfDay, setHours0, getTime, MakeDate, msPerDay.
  destruct (Z.eqb_spec (Day l) (Day r)) as [E | E].
  - rewrite E. apply Z.eqb_refl.
  - apply Z.eqb_neq. lia.
Qed.

End DateFnsFacts.

(** ** The calendar grid *)

Section Loops.

Context {A : Type}.

Lemma forLoop_push_const (x : A) (n : nat) (i : Z) (acc : list A) :
  forLoop n i (fun _ => push x) acc = acc ++ repeat x n.
Proof.
  revert i acc. induction n as [| n IH]; intros i acc; simpl.
  - symmetry. apply app_nil_r.
  - rewrite IH. unfold push. rewrite <- app_assoc. reflexivity.
Qed.

Lemma forLoop_push_each (f : Z -> A) (n : nat) (i : Z) (acc : list A) :
  forLoop n i (fun k => push (f k)) acc = acc ++ map f (daysFrom i n).
Proof.
  revert i acc. induction n as [| n IH]; intros i acc; simpl.
  - symmetry. apply app_nil_r.
  - rewrite IH. unfold push. rewrite <- app_assoc. reflexivity.
Qed.

Lemma daysFrom_length (lo : Z) (n : nat) : length (daysFrom lo n) = n.
Proof. revert lo. induction n as [| n IH]; intros lo; simpl; auto. Qed.

Lemma daysFrom_nth (n : nat) (lo : Z) (k : nat) :
  (k < n)%nat -> nth_error (daysFrom lo n) k = Some (lo + Z.of_nat k).
Proof.
  revert lo k. induction n as [| n IH]; intros lo k Hk; [lia |].
  destruct k as [| k]; simpl.
  - f_equal. lia.
  - rewrite IH by lia. f_equal. lia.
Qed.

End Loops.

Lemma getDay_startOfMonth (d : Date) :
  DateFns.getDay (startOfMonth d) = JsDate.getDay (firstOfMonth d).
Proof.
  unfold DateFns.getDay. rewrite startOfMonth_first_day. reflexivity.
Qed.

Lemma getDay_range (d : Date) : 0 <= JsDate.getDay d <= 6.
Proof. apply WeekDay_range. Qed.

Lemma firstOfMonth_fields (d : Date) :
  getFullYear (firstOfMonth d) = getFullYear d
  /\ getMonth (firstOfMonth d) = getMonth d
  /\ getDate (firstOfMonth d) = 1.
Proof.
  pose proof (daysOfMonth_range (getFullYear d) (getMonth d)) as HN.
  apply (civil_fields (getFullYear d) (getMonth d) (getMonth_range d) 1 0);
    [| unfold msPerDay]; lia.
Qed.

Lemma daysOfMonth_29 (year month : Z) :
  0 <= month <= 11 ->
  daysOfMonth year month = 29 <-> month = 1 /\ isLeapYear year = true.
Proof.
  intros Hm. unfold daysOfMonth.
  assert (Hc : month = 0 \/ month = 1 \/ month = 2 \/ month = 3 \/ month = 4
               \/ month = 5 \/ month = 6 \/ month = 7 \/ month = 8
               \/ month = 9 \/ month = 10 \/ month = 11) by lia.
  repeat (destruct Hc as [Hc | Hc]); rewrite Hc;
    cbv beta iota; destruct (isLeapYear year);
    split; intros H; try discriminate; try lia; try (split; [lia | reflexivity]);
    destruct H as [H1 H2]; try discriminate.
Qed.

(** The loops of [calendarDays] written out: the placeholders, then the
    days in order. *)
Lemma calendarDays_cells (now : Date) (currentMonth : DateValue) :
  calendarDays now currentMonth =
    repeat None (Z.to_nat (JsDate.getDay (firstOfMonth (cursor now currentMonth))))
    ++ map (fun day => Some (newDate (getFullYear (cursor now currentMonth))
                                     (getMonth (cursor now currentMonth)) day))
         (daysFrom 1 (Z.to_nat (daysOfMonth (getFullYear (cursor now currentMonth))
                                            (getMonth (cursor now currentMonth))))).
Proof.
  unfold calendarDays.
  rewrite forLoop_push_const, forLoop_push_each.
  rewrite getDaysInMonth_daysOfMonth, getDay_startOfMonth.
  rewrite Z.sub_0_r, Z.add_simpl_r. reflexivity.
Qed.

Lemma calendarDays_nth (now : Date) (currentMonth : DateValue) (k : nat) :
  (k < Z.to_nat (daysOfMonth (getFullYear (cursor now currentMonth))
                             (getMonth (cursor now currentMonth))))%nat ->
  nth_error (calendarDays now currentMonth)
    (Z.to_nat (JsDate.getDay (firstOfMonth (cursor now currentMonth))) + k) =
  Some (Some (newDate (getFullYear (cursor now currentMonth))
                      (getMonth (cursor now currentMonth)) (1 + Z.of_nat k))).
Proof.
  intros Hk. rewrite calendarDays_cells.
  rewrite nth_error_app2 by (rewrite repeat_length; lia).
  rewrite repeat_length.
  match goal with |- nth_error _ ?i = _ => replace i with k by lia end.
  rewrite nth_error_map, daysFrom_nth by exact Hk. reflexivity.
Qed.

Lemma calendarDays_count (now : Date) (currentMonth : DateValue) :
  Z.of_nat (length (calendarDays now currentMonth)) =
  JsDate.getDay (firstOfMonth (cursor now currentMonth))
  + daysOfMonth (getFullYear (cursor now currentMonth))
                (getMonth (cursor now currentMonth)).
Proof.
  pose proof (getDay_range (firstOfMonth (cursor now currentMonth))).
  pose proof (daysOfMonth_range (getFullYear (cursor now currentMonth))
                (getMonth (cursor now currentMonth))).
  rewrite calendarDays_cells.
  rewrite length_app, repeat_length, length_map, daysFrom_length. lia.
Qed.

Lemma In_daysFrom_1_30 (day : Z) :
  In day (daysFrom 1 30) -> 1 <= day <= daysOfMonth 1950 5.
Proof.
  intros H. apply In_nth_error in H. destruct H as [k Hk].
  assert (Kk : (k < length (daysFrom 1 30))%nat)
    by (apply nth_error_Some; rewrite Hk; discriminate).
  rewrite daysFrom_length in Kk. rewrite daysFrom_nth in Hk by exact Kk.
  assert (E : day = 1 + Z.of_nat k) by congruence.
  change (daysOfMonth 1950 5) with 30. lia.
Qed.

Lemma newDate_fields (year month day : Z) :
  0 <= month <= 11 ->
  1 <= day <= daysOfMonth year month ->
  year < 0 \/ 99 < year ->
  getFullYear (newDate year month day) = year
  /\ getMonth (newDate year month day) = month
  /\ getDate (newDate year month day) = day.
Proof.
  intros Hm Hd Hy. unfold newDate.
  replace ((0 <=? year) && (year <=? 99)) with false.
  - apply (civil_fields year month Hm day 0 Hd). unfold msPerDay. lia.
  - symmetry. apply andb_false_iff.
    destruct Hy; [left; apply Z.leb_gt | right; apply Z.leb_gt]; lia.
Qed.

(** The grid of every cursor: [w] placeholders followed by [N] day cells,
    where [w] is the weekday (0 = Sunday) of day 1 of the cursor's month and
    [N] the length of that month by the calendar rule, February having 29
    days in leap years.  The cell of day [k] is the date
    [new Date(year, month, k)], which is day [k] of that month whenever the
    year is not one of those the constructor reads as 1900 + year (the
    years 0 to 99, evaluated further down). *)
Theorem calendarDays_placeholders_then_days (now : Date) (currentMonth : DateValue) :
  let cur := cursor now currentMonth in
  let year := getFullYear cur in
  let month := getMonth cur in
  let w := JsDate.getDay (firstOfMonth cur) in
  let N := daysOfMonth year month in
  calendarDays now currentMonth =
    repeat None (Z.to_nat w)
    ++ map (fun day => Some (newDate year month day)) (daysFrom 1 (Z.to_nat N))
  /\ (getFullYear (firstOfMonth cur) = year
      /\ getMonth (firstOfMonth cur) = month
      /\ getDate (firstOfMonth cur) = 1)
  /\ 0 <= w <= 6
  /\ 28 <= N <= 31
  /\ (N = 29 <-> month = 1 /\ isLeapYear year = true)
  /\ (forall k : nat, (k < Z.to_nat N)%nat ->
        nth_error (calendarDays now currentMonth) (Z.to_nat w + k) =
          Some (Some (newDate year month (1 + Z.of_nat k))))
  /\ (forall day, 1 <= day <= N -> year < 0 \/ 99 < year ->
        getFullYear (newDate year month day) = year
        /\ getMonth (newDate year month day) = month
        /\ getDate (newDate year month day) = day).
Proof.
  intros cur year month w N.
  split; [apply calendarDays_cells |].
  split; [apply firstOfMonth_fields |].
  split; [apply getDay_range |].
  split; [apply daysOfMonth_range |].
  split; [apply daysOfMonth_29, getMonth_range |].
  split; [apply calendarDays_nth |].
  intros day Hd Hy. apply newDate_fields; trivial. apply getMonth_range.
Qed.

(** March 2024: five placeholders (the month begins on a Friday), then the
    31 days; the cell after the first fourteen is 2024-03-10. *)
Lemma calendarDays_placeholders_then_days_march_2024 :
  let cells := calendarDays (newDate 2024 2 1) (ofDate (newDate 2024 2 10)) in
  cells =
    repeat None 5
    ++ map (fun day => Some (newDate 2024 2 day)) (daysFrom 1 31)
  /\ nth_error cells (5 + 9) = Some (Some (newDate 2024 2 10))
  /\ getDate (newDate 2024 2 10) = 10.
Proof.
  intros cells.
  destruct (calendarDays_placeholders_then_days
              (newDate 2024 2 1) (ofDate (newDate 2024 2 10)))
    as (H1 & _ & _ & _ & _ & H6 & H7).
  split; [exact H1 |].
  split; [apply (H6 9%nat); vm_compute; lia |].
  apply (H7 10); vm_compute; [split; discriminate | right; reflexivity].
Defined.

(** C6 fails on the code for a cursor in the years 0 to 99, where
    [new Date(year, month, day)] is a day of year 1900 + year.  For a cursor
    in June of year 50 the grid has the 3 placeholders of June 0050 (which
    begins on a Wednesday) followed by the 30 days of June 1950 (which begins
    on a Thursday): no cell is a day of the cursor's month.  For a cursor in
    February of year 0 (a leap year) there are 29 day cells, the days of
    February 1900 (not a leap year), and the 29th is 1 March 1900. *)
Theorem calendarDays_of_year_50_are_days_of_1950 :
  let june50 := Date_setFullYear (newDate 2024 5 15) 50 in
  let february0 := Date_setFullYear (newDate 2024 1 15) 0 in
  (getFullYear june50 = 50 /\ getMonth june50 = 5
   /\ JsDate.getDay (firstOfMonth june50) = 3
   /\ daysOfMonth 50 5 = 30
   /\ calendarDays june50 (ofDate june50) =
        repeat None 3
        ++ map (fun day => Some (newDate 1950 5 day)) (daysFrom 1 30)
   /\ (forall cell, In (Some cell) (calendarDays june50 (ofDate june50)) ->
         getFullYear cell = 1950 /\ getMonth cell = 5)
   /\ JsDate.getDay (newDate 1950 5 1) = 4)
  /\ (getFullYear february0 = 0 /\ getMonth february0 = 1
      /\ JsDate.getDay (firstOfMonth february0) = 2
      /\ daysOfMonth 0 1 = 29
      /\ length (calendarDays february0 (ofDate february0)) = (2 + 29)%nat
      /\ exists cell,
           nth_error (calendarDays february0 (ofDate february0)) (2 + 28)
             = Some (Some cell)
           /\ getFullYear cell = 1900 /\ getMonth cell = 2
           /\ getDate cell = 1).
Proof.
  intros june50 february0.
  assert (Cells : calendarDays june50 (ofDate june50) =
                  repeat None 3
                  ++ map (fun day => Some (newDate 1950 5 day)) (daysFrom 1 30))
    by (vm_compute; reflexivity).
  split.
  - split; [vm_compute; reflexivity |]. split; [vm_compute; reflexivity |].
    split; [vm_compute; reflexivity |]. split; [vm_compute; reflexivity |].
    split; [exact Cells |]. split; [| vm_compute; reflexivity].
    intros cell Hin. rewrite Cells in Hin.
    apply in_app_or in Hin. destruct Hin as [Hin | Hin].
    + apply repeat_spec in Hin. discriminate.
    + apply in_map_iff in Hin. destruct Hin as (day & E & Hd).
      apply In_daysFrom_1_30 in Hd.
      assert (Ec : cell = newDate 1950 5 day) by congruence.
      destruct (newDate_fields 1950 5 day) as (F1 & F2 & _);
        [lia | exact Hd | right; lia |].
      rewrite Ec. split; [exact F1 | exact F2].
  - split; [vm_compute; reflexivity |]. split; [vm_compute; reflexivity |].
    split; [vm_compute; reflexivity |]. split; [vm_compute; reflexivity |].
    split; [vm_compute; reflexivity |].
    exists (newDate 1900 2 1).
    split; [vm_compute; reflexivity |]. split; [vm_compute; reflexivity |].
    split; vm_compute; reflexivity.
Qed.

(** February 2015 begins on a Sunday and has 28 days: four full rows. *)
Example calendarDays_february_2015 :
  length (calendarDays (newDate 2024 2 1) (ofDate (newDate 2015 1 10))) = 28%nat.
Proof. vm_compute. reflexivity. Qed.

(** C1, as the code has it. The grid has [w + N] cells, [w] (0..6) being
    the weekday of day 1 of the month and [N] (28..31) the length of the
    month: between 28 and 37 cells. No placeholder follows the last day, so
    the length is a multiple of 7 only when [w + N] is. *)
Theorem calendarDays_length (now : Date) (currentMonth : DateValue) :
  let cur := cursor now currentMonth in
  let w := JsDate.getDay (firstOfMonth cur) in
  let N := daysOfMonth (getFullYear cur) (getMonth cur) in
  Z.of_nat (length (calendarDays now currentMonth)) = w + N
  /\ 0 <= w <= 6
  /\ 28 <= N <= 31
  /\ (Nat.divide 7 (length (calendarDays now currentMonth))
      <-> (w + N) mod 7 = 0).
Proof.
  intros cur w N.
  assert (HL : Z.of_nat (length (calendarDays now currentMonth)) = w + N)
    by apply calendarDays_count.
  assert (Hw : 0 <= w <= 6) by apply getDay_range.
  assert (HN : 28 <= N <= 31) by apply daysOfMonth_range.
  clearbody w N. clear cur.
  repeat split; try lia.
  - intros [k Hk]. rewrite <- HL, Hk, Nat2Z.inj_mul.
    apply Z.mod_mul. lia.
  - intros H. exists (Z.to_nat ((w + N) / 7)).
    apply Nat2Z.inj. rewrite HL, Nat2Z.inj_mul, Z2Nat.id.
    + change (Z.of_nat 7) with 7. Z.to_euclidean_division_equations. lia.
    + Z.to_euclidean_division_equations. lia.
Qed.

(** C1, as stated, fails: the grid of March 2024 (which begins on a Friday
    and has 31 days) has 36 cells. *)
Lemma calendarDays_march_2024_not_multiple_of_7 :
  length (calendarDays (newDate 2024 2 10) (ofDate (newDate 2024 2 10))) = 36%nat
  /\ ~ Nat.divide 7
       (length (calendarDays (newDate 2024 2 10) (ofDate (newDate 2024 2 10)))).
Proof.
  assert (H : length (calendarDays (newDate 2024 2 10) (ofDate (newDate 2024 2 10)))
              = 36%nat) by (vm_compute; reflexivity).
  split; [exact H |].
  rewrite H. intros [k Hk]. lia.
Qed.

(** ** The two-click range protocol *)

(** Unfolds the statements of a handler on the state at hand. *)
Ltac exec :=
  cbv beta iota zeta delta
    [run fold_left call skip app negb truthy orb andb fst snd
     setSelectedDate setCurrentMonth setIsOpen setIsRangeMode
     setRangeStart setRangeEnd setRangeHover
     selectedDate currentMonth isOpen view isRangeMode
     rangeStart rangeEnd rangeHover].

(** Names the cells of a state and reads the projections off them. *)
Ltac cells st :=
  destruct st as [sd cm io vw rm rs re rh];
  cbv beta iota delta
    [selectedDate currentMonth isOpen view isRangeMode
     rangeStart rangeEnd rangeHover] in *.

Lemma emptyOrComplete_cells (st : State) :
  emptyOrComplete st ->
  negb (truthy (rangeStart st))
  || (truthy (rangeStart st) && truthy (rangeEnd st)) = true.
Proof.
  unfold emptyOrComplete, rangeState.
  destruct (rangeStart st), (rangeEnd st); simpl; trivial;
    intros [H | (s & e & H)]; discriminate.
Qed.

(** The first click of a selection, written out. *)
Lemma handleSelect_first (st : State) (day : Date) :
  isRangeMode st = true ->
  emptyOrComplete st ->
  handleSelect st day =
    ({| selectedDate := selectedDate st; currentMonth := currentMonth st;
        isOpen := isOpen st; view := view st; isRangeMode := true;
        rangeStart := Some day; rangeEnd := None; rangeHover := None |}, []).
Proof.
  intros Hm He. apply emptyOrComplete_cells in He.
  unfold handleSelect. cells st. rewrite Hm, He. exec. reflexivity.
Qed.

(** The second click, written out: the earlier of the two days comes
    first. *)
Lemma handleSelect_second (st : State) (start day : Date) :
  isRangeMode st = true ->
  rangeState st = Some (StartSelected start) ->
  handleSelect st day =
    ({| selectedDate := selectedDate st; currentMonth := currentMonth st;
        isOpen := false; view := view st; isRangeMode := true;
        rangeStart := Some (Z.min start day);
        rangeEnd := Some (Z.max start day);
        rangeHover := rangeHover st |},
     [call_onValueChange
        (Some (ofRange {| from := holds (Some (Z.min start day));
                          to := holds (Some (Z.max start day)) |}))]).
Proof.
  intros Hm Hs. unfold rangeState in Hs. unfold handleSelect.
  cells st. rewrite Hm.
  destruct rs as [s |]; destruct re; try discriminate.
  injection Hs as ->.
  unfold isAfter, getTime.
  destruct (Z.ltb_spec start day) as [Hlt | Hge]; exec.
  - rewrite Z.min_l, Z.max_r by lia. reflexivity.
  - rewrite Z.min_r, Z.max_l by lia. reflexivity.
Qed.

(** C7. In range mode a click on a day while the selection is empty or
    complete makes that day the start of a new selection, clears the hover
    preview, calls no callback and leaves the panel as it is. *)
Theorem click_in_empty_or_complete_starts_selection (st : State) (day : Date) :
  isRangeMode st = true ->
  emptyOrComplete st ->
  rangeState (fst (handleSelect st day)) = Some (StartSelected day)
  /\ rangeHover (fst (handleSelect st day)) = None
  /\ snd (handleSelect st day) = []
  /\ isOpen (fst (handleSelect st day)) = isOpen st
  /\ selectedDate (fst (handleSelect st day)) = selectedDate st
  /\ currentMonth (fst (handleSelect st day)) = currentMonth st
  /\ view (fst (handleSelect st day)) = view st
  /\ isRangeMode (fst (handleSelect st day)) = true.
Proof.
  intros Hm He. rewrite (handleSelect_first st day Hm He).
  repeat split.
Qed.

Lemma click_in_empty_or_complete_starts_selection_witness :
  rangeState (fst (handleSelect rangePickerOpened (newDate 2024 2 10)))
    = Some (StartSelected (newDate 2024 2 10))
  /\ rangeHover (fst (handleSelect rangePickerOpened (newDate 2024 2 10))) = None
  /\ snd (handleSelect rangePickerOpened (newDate 2024 2 10)) = []
  /\ isOpen (fst (handleSelect rangePickerOpened (newDate 2024 2 10))) = true.
Proof.
  destruct (click_in_empty_or_complete_starts_selection
              rangePickerOpened (newDate 2024 2 10))
    as (H1 & H2 & H3 & H4 & _).
  - reflexivity.
  - left. reflexivity.
  - split; [exact H1 |]. split; [exact H2 |]. split; [exact H3 | exact H4].
Defined.

Lemma fireAll_two_clicks (st : State) (a b : Date) :
  isRangeMode st = true ->
  emptyOrComplete st ->
  fireAll st [Click a; Click b] =
    ({| selectedDate := selectedDate st; currentMonth := currentMonth st;
        isOpen := false; view := view st; isRangeMode := true;
        rangeStart := Some (Z.min a b);
        rangeEnd := Some (Z.max a b);
        rangeHover := None |},
     [call_onValueChange
        (Some (ofRange {| from := holds (Some (Z.min a b));
                          to := holds (Some (Z.max a b)) |}))]).
Proof.
  intros Hm He. unfold fireAll, fire.
  rewrite (handleSelect_first st a Hm He).
  rewrite (handleSelect_second _ a b) by reflexivity.
  reflexivity.
Qed.

(** C2. In range mode, two clicks [a] then [b] starting from an empty or a
    complete selection commit the range from the earlier to the later of the
    two days, whatever the order of the clicks: [from <= to], the range is
    passed to [onValueChange] (the only call made) and the panel is closed.
    At [a] = 2024-03-10 and [b] = 2024-03-05 the range is
    [{from: 2024-03-05, to: 2024-03-10}]. *)
Theorem two_clicks_commit_ordered_range (st : State) (a b : Date) :
  isRangeMode st = true ->
  emptyOrComplete st ->
  let result := fireAll st [Click a; Click b] in
  let range_from := if isAfter b a then a else b in
  let range_to := if isAfter b a then b else a in
  rangeState (fst result) = Some (Complete range_from range_to)
  /\ getTime range_from <= getTime range_to
  /\ (range_from = Z.min a b /\ range_to = Z.max a b)
  /\ snd result =
       [call_onValueChange
          (Some (ofRange {| from := holds (Some range_from);
                            to := holds (Some range_to) |}))]
  /\ isOpen (fst result) = false.
Proof.
  intros Hm He result range_from range_to.
  assert (E : range_from = Z.min a b /\ range_to = Z.max a b).
  { unfold range_from, range_to, isAfter, getTime.
    destruct (Z.ltb_spec a b); split; lia. }
  destruct E as [E1 E2]. rewrite E1, E2.
  unfold result. rewrite (fireAll_two_clicks st a b Hm He).
  unfold getTime. repeat split. lia.
Qed.

(** Scenario A: 2024-03-10 is clicked, then 2024-03-05. *)
Lemma two_clicks_commit_ordered_range_scenario_A :
  let result :=
    fireAll rangePickerOpened [Click (newDate 2024 2 10); Click (newDate 2024 2 5)] in
  rangeState (fst result)
    = Some (Complete (newDate 2024 2 5) (newDate 2024 2 10))
  /\ snd result =
       [call_onValueChange
          (Some (ofRange {| from := holds (Some (newDate 2024 2 5));
                            to := holds (Some (newDate 2024 2 10)) |}))]
  /\ isOpen rangePickerOpened = true
  /\ isOpen (fst result) = false.
Proof.
  destruct (two_clicks_commit_ordered_range
              rangePickerOpened (newDate 2024 2 10) (newDate 2024 2 5))
    as (H1 & _ & _ & H4 & H5).
  - reflexivity.
  - left. reflexivity.
  - split; [exact H1 |]. split; [exact H4 |]. split; [reflexivity | exact H5].
Defined.

(** *** Hovering *)

Lemma sameButHover_refl (st : State) : sameButHover st st.
Proof. repeat split. Qed.

Lemma sameButHover_trans (st1 st2 st3 : State) :
  sameButHover st1 st2 -> sameButHover st2 st3 -> sameButHover st1 st3.
Proof.
  unfold sameButHover. intros H1 H2.
  decompose [and] H1. decompose [and] H2. repeat split; congruence.
Qed.

Lemma handleDayHover_frame (st : State) (day : Date) :
  sameButHover (fst (handleDayHover st day)) st
  /\ snd (handleDayHover st day) = [].
Proof.
  unfold handleDayHover, sameButHover.
  destruct (isRangeMode st && truthy (rangeStart st) && negb (truthy (rangeEnd st)));
    cells st; exec; repeat split.
Qed.

Lemma handleDayHover_ignored (st : State) (day : Date) :
  emptyOrComplete st -> handleDayHover st day = (st, []).
Proof.
  unfold emptyOrComplete, rangeState, handleDayHover.
  destruct (rangeStart st), (rangeEnd st); simpl;
    intros [H | (s & e & H)]; try discriminate;
    rewrite ?andb_false_r; reflexivity.
Qed.

Lemma handleDayHover_records (st : State) (start day : Date) :
  isRangeMode st = true ->
  rangeState st = Some (StartSelected start) ->
  rangeHover (fst (handleDayHover st day)) = Some day.
Proof.
  unfold rangeState, handleDayHover. intros Hm Hs. rewrite Hm.
  destruct (rangeStart st), (rangeEnd st); try discriminate. reflexivity.
Qed.

Lemma hovers_frame (hs : list Date) (st : State) :
  sameButHover (fst (fireAll st (map Hover hs))) st
  /\ snd (fireAll st (map Hover hs)) = [].
Proof.
  revert st. induction hs as [| h hs IH]; intros st; simpl.
  - split; [apply sameButHover_refl | reflexivity].
  - destruct (handleDayHover_frame st h) as [F1 F2].
    destruct (handleDayHover st h) as [st1 c1]. simpl in F1, F2.
    destruct (IH st1) as [G1 G2].
    destruct (fireAll st1 (map Hover hs)) as [st2 c2]. simpl in *.
    subst. split; [eapply sameButHover_trans; eassumption | reflexivity].
Qed.

Lemma fireAll_app (evs1 evs2 : list Event) (st : State) :
  fireAll st (evs1 ++ evs2) =
    (fst (fireAll (fst (fireAll st evs1)) evs2),
     snd (fireAll st evs1) ++ snd (fireAll (fst (fireAll st evs1)) evs2)).
Proof.
  revert st. induction evs1 as [| ev evs1 IH]; intros st; simpl.
  - destruct (fireAll st evs2). reflexivity.
  - destruct (fire st ev) as [st1 c1]. rewrite IH.
    destruct (fireAll st1 evs1) as [st2 c2]. simpl.
    destruct (fireAll st2 evs2) as [st3 c3]. simpl.
    rewrite app_assoc. reflexivity.
Qed.

(** A click reads the committed cells only: the hover preview changes
    neither the calls it makes nor the cells it writes. *)
Lemma handleSelect_ignores_hover (st1 st2 : State) (day : Date) :
  sameButHover st1 st2 ->
  sameButHover (fst (handleSelect st1 day)) (fst (handleSelect st2 day))
  /\ snd (handleSelect st1 day) = snd (handleSelect st2 day).
Proof.
  unfold sameButHover. intros H.
  destruct st1 as [sd1 cm1 io1 vw1 rm1 rs1 re1 rh1].
  destruct st2 as [sd2 cm2 io2 vw2 rm2 rs2 re2 rh2].
  cbv beta iota delta
    [selectedDate currentMonth isOpen view isRangeMode rangeStart rangeEnd] in H.
  decompose [and] H. subst.
  unfold handleSelect.
  cbv beta iota delta [isRangeMode rangeStart rangeEnd].
  destruct rm2; [| exec; repeat split].
  destruct rs2 as [s |], re2 as [e |]; try solve [exec; repeat split].
  cbv beta iota delta [negb truthy orb andb].
  destruct (isAfter day s); exec; repeat split.
Qed.

Lemma fireAll_single (st : State) (ev : Event) : fireAll st [ev] = fire st ev.
Proof.
  unfold fireAll. destruct (fire st ev) as [st1 c1].
  rewrite app_nil_r. reflexivity.
Qed.

Lemma fireAll_hovers_then_click (st : State) (hs : list Date) (b : Date) :
  sameButHover (fst (fireAll st (map Hover hs ++ [Click b])))
               (fst (handleSelect st b))
  /\ snd (fireAll st (map Hover hs ++ [Click b])) = snd (handleSelect st b).
Proof.
  rewrite fireAll_app, fireAll_single.
  destruct (hovers_frame hs st) as [H1 H2]. rewrite H2, app_nil_l.
  unfold fire, fst at 1, snd at 1.
  apply handleSelect_ignores_hover, H1.
Qed.

(** C8. Between the two clicks of a range selection any sequence of hovers
    leaves the committed cells as they are: a hover changes nothing but the
    preview and calls no callback, it records the hovered day while a start
    alone is selected, it does nothing at all while the selection is empty or
    complete, and the range committed by the second click, with the calls
    made, is the one committed without any hover. *)
Theorem hovers_do_not_change_committed_range
    (st : State) (a b : Date) (hs : list Date) :
  isRangeMode st = true ->
  emptyOrComplete st ->
  let hovered := fireAll st (Click a :: map Hover hs ++ [Click b]) in
  let direct := fireAll st [Click a; Click b] in
  rangeState (fst hovered) = rangeState (fst direct)
  /\ rangeState (fst hovered) = Some (Complete (Z.min a b) (Z.max a b))
  /\ snd hovered = snd direct
  /\ sameButHover (fst hovered) (fst direct)
  /\ (forall s day,
        sameButHover (fst (handleDayHover s day)) s
        /\ snd (handleDayHover s day) = [])
  /\ (forall s start day,
        isRangeMode s = true ->
        rangeState s = Some (StartSelected start) ->
        rangeHover (fst (handleDayHover s day)) = Some day)
  /\ (forall s day, emptyOrComplete s -> handleDayHover s day = (s, [])).
Proof.
  intros Hm He hovered direct.
  assert (Hd : direct = fireAll st [Click a; Click b]) by reflexivity.
  rewrite (fireAll_two_clicks st a b Hm He) in Hd.
  assert (Hh : sameButHover (fst hovered) (fst direct)
               /\ snd hovered = snd direct).
  { unfold hovered.
    change (Click a :: map Hover hs ++ [Click b])
      with ([Click a] ++ (map Hover hs ++ [Click b])).
    rewrite fireAll_app, fireAll_single.
    change (fire st (Click a)) with (handleSelect st a).
    rewrite (handleSelect_first st a Hm He).
    cbn [fst snd app].
    match goal with
    | |- context [fireAll ?s (map Hover hs ++ [Click b])] =>
        destruct (fireAll_hovers_then_click s hs b) as [G1 G2];
        rewrite (handleSelect_second s a b) in G1, G2 by reflexivity
    end.
    rewrite Hd. split; [exact G1 | exact G2]. }
  destruct Hh as [H1 H2].
  assert (Hr : rangeState (fst hovered) = rangeState (fst direct)).
  { destruct H1 as (_ & _ & _ & _ & _ & Hs & Hf).
    unfold rangeState. rewrite Hs, Hf. reflexivity. }
  split; [exact Hr |].
  split; [rewrite Hr, Hd; reflexivity |].
  split; [exact H2 |].
  split; [exact H1 |].
  split; [apply handleDayHover_frame |].
  split; [apply handleDayHover_records | apply handleDayHover_ignored].
Qed.

Lemma hovers_do_not_change_committed_range_witness :
  let hovered :=
    fireAll rangePickerOpened
      [Click (newDate 2024 2 10); Hover (newDate 2024 2 12);
       Hover (newDate 2024 2 3); Click (newDate 2024 2 5)] in
  let direct :=
    fireAll rangePickerOpened
      [Click (newDate 2024 2 10); Click (newDate 2024 2 5)] in
  rangeState (fst hovered)
    = Some (Complete (newDate 2024 2 5) (newDate 2024 2 10))
  /\ snd hovered = snd direct
  /\ rangeHover (fst hovered) = Some (newDate 2024 2 3)
  /\ rangeHover (fst direct) = None.
Proof.
  destruct (hovers_do_not_change_committed_range
              rangePickerOpened (newDate 2024 2 10) (newDate 2024 2 5)
              [newDate 2024 2 12; newDate 2024 2 3])
    as (_ & H2 & H3 & _).
  - reflexivity.
  - left. reflexivity.
  - split; [exact H2 |]. split; [exact H3 |]. split; reflexivity.
Defined.

(** ** Range boundary markers *)

(** C3, as the code has it. [isRangeStart] holds exactly when range mode is
    on, a start is committed and the day is the same day as it;
    [isRangeEnd] holds exactly when range mode is on, an end is committed and
    the day is the same day as it.  Neither reads the hover preview. *)
Theorem range_markers_test_committed_endpoints (st : State) (day : Date) :
  (isRangeStart st day = true <->
     isRangeMode st = true
     /\ exists s, rangeStart st = Some s /\ isSameDay day s = true)
  /\ (isRangeEnd st day = true <->
        isRangeMode st = true
        /\ exists e, rangeEnd st = Some e /\ isSameDay day e = true)
  /\ (forall s e, isSameDay s e = true <-> Day s = Day e)
  /\ (forall st', sameButHover st' st ->
        isRangeStart st' day = isRangeStart st day
        /\ isRangeEnd st' day = isRangeEnd st day).
Proof.
  split; [| split; [| split]].
  - unfold isRangeStart.
    destruct (rangeStart st) as [s |], (isRangeMode st); simpl; split;
      try discriminate; try (intros [H _]; discriminate);
      try (intros (_ & s' & H & _); discriminate).
    + intros H. split; [reflexivity |]. exists s. split; [reflexivity | exact H].
    + intros (_ & s' & H1 & H2). injection H1 as <-. exact H2.
  - unfold isRangeEnd.
    destruct (rangeEnd st) as [e |], (isRangeMode st); simpl; split;
      try discriminate; try (intros [H _]; discriminate);
      try (intros (_ & s' & H & _); discriminate).
    + intros H. split; [reflexivity |]. exists e. split; [reflexivity | exact H].
    + intros (_ & s' & H1 & H2). injection H1 as <-. exact H2.
  - intros s e. rewrite isSameDay_Day. apply Z.eqb_eq.
  - intros st' (_ & _ & _ & _ & Hm & Hs & Hf).
    unfold isRangeStart, isRangeEnd. rewrite Hm, Hs, Hf. split; reflexivity.
Qed.

(** C3, as stated, fails. In range mode, after a click on 2024-03-05 and
    a hover over 2024-03-10, the provisional end of the selection is
    2024-03-10, and [isRangeEnd] does not hold of that day. *)
Lemma isRangeEnd_false_on_hovered_day :
  let st :=
    fst (fireAll rangePickerOpened
           [Click (newDate 2024 2 5); Hover (newDate 2024 2 10)]) in
  let day := newDate 2024 2 10 in
  isRangeMode st = true
  /\ rangeState st = Some (StartSelected (newDate 2024 2 5))
  /\ endPointWithPreview st = Some day
  /\ isSameDay day day = true
  /\ isRangeEnd st day = false
  /\ ~ (isRangeEnd st day = true <->
          exists e, endPointWithPreview st = Some e /\ isSameDay day e = true).
Proof.
  intros st day.
  assert (Hp : endPointWithPreview st = Some day) by reflexivity.
  assert (Hs : isSameDay day day = true) by reflexivity.
  assert (He : isRangeEnd st day = false) by reflexivity.
  repeat split; trivial.
  intros [_ H]. rewrite He in H.
  assert (C : false = true) by (apply H; exists day; split; assumption).
  discriminate C.
Qed.

(** ** The duo-mode switch *)

Lemma onCheckedChange_cells (st : State) (isChecked : bool) :
  selectedDate (fst (onCheckedChange st isChecked)) = selectedDate st
  /\ rangeStart (fst (onCheckedChange st isChecked)) = rangeStart st
  /\ rangeEnd (fst (onCheckedChange st isChecked)) = rangeEnd st
  /\ rangeHover (fst (onCheckedChange st isChecked)) = rangeHover st
  /\ isRangeMode (fst (onCheckedChange st isChecked)) = isChecked.
Proof.
  unfold onCheckedChange. cells st.
  destruct isChecked; [destruct rs | destruct sd]; exec; repeat split.
Qed.

(** C4. In duo mode a flip of the switch writes neither the single value
    nor the cells of the range selection (start, end, hover preview): after
    on-then-off, and after off-then-on, all of them are as before the first
    flip, and so they are after each single flip. *)
Theorem mode_flips_keep_both_selections (p : Props) (st : State) :
  mode p = Duo ->
  let kept (s : State) :=
    selectedDate s = selectedDate st
    /\ rangeStart s = rangeStart st
    /\ rangeEnd s = rangeEnd st
    /\ rangeHover s = rangeHover st in
  kept (fst (setRangeMode p st true))
  /\ kept (fst (setRangeMode p (fst (setRangeMode p st true)) false))
  /\ kept (fst (setRangeMode p st false))
  /\ kept (fst (setRangeMode p (fst (setRangeMode p st false)) true))
  /\ isRangeMode (fst (setRangeMode p (fst (setRangeMode p st true)) false)) = false
  /\ isRangeMode (fst (setRangeMode p (fst (setRangeMode p st false)) true)) = true.
Proof.
  intros Hd kept. unfold setRangeMode. rewrite Hd. unfold kept.
  pose proof (onCheckedChange_cells st true) as (A1 & A2 & A3 & A4 & _).
  pose proof (onCheckedChange_cells st false) as (B1 & B2 & B3 & B4 & _).
  pose proof (onCheckedChange_cells (fst (onCheckedChange st true)) false)
    as (C1 & C2 & C3 & C4 & C5).
  pose proof (onCheckedChange_cells (fst (onCheckedChange st false)) true)
    as (D1 & D2 & D3 & D4 & D5).
  repeat split; congruence.
Qed.

Lemma mode_flips_keep_both_selections_witness :
  let st :=
    fst (fireAll (fst (setRangeMode duoPicker duoWithSingle true))
           [Click (newDate 2024 2 5); Hover (newDate 2024 2 10)]) in
  let back := fst (setRangeMode duoPicker (fst (setRangeMode duoPicker st false)) true) in
  selectedDate back = Some (ofDate (newDate 2024 0 1))
  /\ rangeStart back = Some (newDate 2024 2 5)
  /\ rangeEnd back = None
  /\ rangeHover back = Some (newDate 2024 2 10).
Proof.
  intros st back.
  destruct (mode_flips_keep_both_selections duoPicker st eq_refl)
    as (_ & _ & _ & (H1 & H2 & H3 & H4) & _).
  split; [exact H1 |]. split; [exact H2 |]. split; [exact H3 | exact H4].
Defined.

Lemma onCheckedChange_on (st : State) :
  snd (onCheckedChange st true) =
    [call_onValueChange (completeRange st); call_onModeChange Range]
  /\ currentMonth (fst (onCheckedChange st true)) =
       match rangeStart st with
       | Some s => ofDate s
       | None => currentMonth st
       end.
Proof.
  unfold onCheckedChange, completeRange, rangeState. cells st.
  destruct rs, re; exec; split; reflexivity.
Qed.

Lemma onCheckedChange_off (st : State) :
  snd (onCheckedChange st false) =
    [call_onValueChange (selectedDate st); call_onModeChange Single]
  /\ currentMonth (fst (onCheckedChange st false)) =
       match selectedDate st with
       | Some v => v
       | None => currentMonth st
       end.
Proof.
  unfold onCheckedChange. cells st.
  destruct sd; exec; split; reflexivity.
Qed.

(** C5. In duo mode, turning the switch on calls [onValueChange] with the
    range [{from, to}] when both ends are committed and with [undefined]
    otherwise, and moves the calendar to the start of the range when there
    is one; turning it off calls [onValueChange] with the single value, a
    date when one is selected and [undefined] when none is.  Each flip then
    calls [onModeChange]. *)
Theorem mode_flip_emits_value_of_new_mode (p : Props) (st : State) :
  mode p = Duo ->
  (snd (setRangeMode p st true) =
     [call_onValueChange (completeRange st); call_onModeChange Range])
  /\ (forall s e, rangeStart st = Some s -> rangeEnd st = Some e ->
        completeRange st =
          Some (ofRange {| from := holds (Some s); to := holds (Some e) |}))
  /\ (rangeStart st = None \/ rangeEnd st = None -> completeRange st = None)
  /\ (forall s, rangeStart st = Some s ->
        currentMonth (fst (setRangeMode p st true)) = ofDate s)
  /\ (rangeStart st = None ->
        currentMonth (fst (setRangeMode p st true)) = currentMonth st)
  /\ (snd (setRangeMode p st false) =
        [call_onValueChange (selectedDate st); call_onModeChange Single])
  /\ (forall d, selectedDate st = Some (ofDate d) ->
        snd (setRangeMode p st false) =
          [call_onValueChange (Some (ofDate d)); call_onModeChange Single])
  /\ (selectedDate st = None ->
        snd (setRangeMode p st false) =
          [call_onValueChange None; call_onModeChange Single]).
Proof.
  intros Hd. unfold setRangeMode. rewrite Hd.
  destruct (onCheckedChange_on st) as [On1 On2].
  destruct (onCheckedChange_off st) as [Off1 _].
  split; [exact On1 |].
  split.
  { intros s e Hs He. unfold completeRange, rangeState. rewrite Hs, He.
    reflexivity. }
  split.
  { unfold completeRange, rangeState.
    intros [H | H]; rewrite H;
      [destruct (rangeEnd st) | destruct (rangeStart st)]; reflexivity. }
  split; [intros s Hs; rewrite On2, Hs; reflexivity |].
  split; [intros Hs; rewrite On2, Hs; reflexivity |].
  split; [exact Off1 |].
  split; intros; rewrite Off1; congruence.
Qed.

(** Scenario B: the single value is 2024-01-01 and no range is in progress;
    the switch is turned on, then off. *)
Lemma mode_flip_emits_value_of_new_mode_scenario_B :
  let ranged := fst (setRangeMode duoPicker duoWithSingle true) in
  selectedDate duoWithSingle = Some (ofDate (newDate 2024 0 1))
  /\ rangeState duoWithSingle = Some Empty
  /\ snd (setRangeMode duoPicker duoWithSingle true) =
       [call_onValueChange None; call_onModeChange Range]
  /\ snd (setRangeMode duoPicker ranged false) =
       [call_onValueChange (Some (ofDate (newDate 2024 0 1)));
        call_onModeChange Single].
Proof.
  intros ranged.
  destruct (mode_flip_emits_value_of_new_mode duoPicker duoWithSingle eq_refl)
    as (H1 & _).
  destruct (mode_flip_emits_value_of_new_mode duoPicker ranged eq_refl)
    as (_ & _ & _ & _ & _ & H6 & _).
  split; [reflexivity |]. split; [reflexivity |].
  split; [exact H1 | exact H6].
Defined.

(** ** Reset *)

Lemma handleReset_no_handler (p : Props) (st : State) :
  onReset p = false -> handleReset p st = (st, []).
Proof. unfold handleReset. intros H. rewrite H. reflexivity. Qed.

Lemma handleReset_single (p : Props) (st : State) :
  onReset p = true ->
  isRangeMode st = false ->
  handleReset p st =
    ({| selectedDate := None; currentMonth := currentMonth st;
        isOpen := isOpen st; view := view st; isRangeMode := false;
        rangeStart := rangeStart st; rangeEnd := rangeEnd st;
        rangeHover := rangeHover st |},
     [call_onValueChange None; call_onReset]).
Proof.
  unfold handleReset. intros Hp Hm. rewrite Hp.
  cells st. rewrite Hm. exec. reflexivity.
Qed.

Lemma handleReset_range (p : Props) (st : State) :
  onReset p = true ->
  isRangeMode st = true ->
  handleReset p st =
    ({| selectedDate := selectedDate st; currentMonth := currentMonth st;
        isOpen := isOpen st; view := view st; isRangeMode := true;
        rangeStart := None; rangeEnd := None; rangeHover := None |},
     [call_onValueChange
        (Some (ofRange {| from := holds None; to := holds None |}));
      call_onReset]).
Proof.
  unfold handleReset. intros Hp Hm. rewrite Hp.
  cells st. rewrite Hm. exec. reflexivity.
Qed.

(** C9. Without a reset handler [handleReset] does nothing: the state is
    unchanged and no callback is called.  With one, it clears the selection
    of the active mode (the single value, or the start, end and hover preview
    of the range) and passes the empty value to [onValueChange]: [undefined]
    in single mode, [{from: undefined, to: undefined}] in range mode; then it
    calls the reset handler. *)
Theorem handleReset_inert_without_handler (p : Props) (st : State) :
  (onReset p = false -> handleReset p st = (st, []))
  /\ (onReset p = true -> isRangeMode st = false ->
        selectedDate (fst (handleReset p st)) = None
        /\ snd (handleReset p st) = [call_onValueChange None; call_onReset]
        /\ rangeState (fst (handleReset p st)) = rangeState st
        /\ rangeHover (fst (handleReset p st)) = rangeHover st)
  /\ (onReset p = true -> isRangeMode st = true ->
        rangeState (fst (handleReset p st)) = Some Empty
        /\ rangeHover (fst (handleReset p st)) = None
        /\ snd (handleReset p st) =
             [call_onValueChange
                (Some (ofRange {| from := holds None; to := holds None |}));
              call_onReset]
        /\ selectedDate (fst (handleReset p st)) = selectedDate st)
  /\ (onReset p = true ->
        isOpen (fst (handleReset p st)) = isOpen st
        /\ isRangeMode (fst (handleReset p st)) = isRangeMode st
        /\ currentMonth (fst (handleReset p st)) = currentMonth st
        /\ view (fst (handleReset p st)) = view st).
Proof.
  split; [apply handleReset_no_handler |].
  split; [intros Hp Hm; rewrite (handleReset_single p st Hp Hm); repeat split |].
  split; [intros Hp Hm; rewrite (handleReset_range p st Hp Hm); repeat split |].
  intros Hp. destruct (isRangeMode st) eqn:Hm.
  - rewrite (handleReset_range p st Hp Hm). repeat split.
  - rewrite (handleReset_single p st Hp Hm). repeat split.
Qed.

Lemma handleReset_inert_without_handler_witness :
  let picked :=
    fst (fireAll rangePickerOpened
           [Click (newDate 2024 2 10); Click (newDate 2024 2 5)]) in
  let ranged :=
    fst (fireAll (fst (setRangeMode duoPicker duoWithSingle true))
           [Click (newDate 2024 2 5); Hover (newDate 2024 2 10)]) in
  handleReset rangePicker picked = (picked, [])
  /\ selectedDate (fst (handleReset duoPicker duoWithSingle)) = None
  /\ snd (handleReset duoPicker duoWithSingle) =
       [call_onValueChange None; call_onReset]
  /\ rangeState (fst (handleReset duoPicker ranged)) = Some Empty
  /\ snd (handleReset duoPicker ranged) =
       [call_onValueChange
          (Some (ofRange {| from := holds None; to := holds None |}));
        call_onReset]
  /\ selectedDate (fst (handleReset duoPicker ranged))
       = Some (ofDate (newDate 2024 0 1)).
Proof.
  intros picked ranged.
  destruct (handleReset_inert_without_handler rangePicker picked) as (N & _).
  destruct (handleReset_inert_without_handler duoPicker duoWithSingle)
    as (_ & S & _).
  destruct (handleReset_inert_without_handler duoPicker ranged)
    as (_ & _ & R & _).
  destruct (S eq_refl eq_refl) as (S1 & S2 & _).
  destruct (R eq_refl eq_refl) as (R1 & _ & R3 & R4).
  split; [exact (N eq_refl) |].
  split; [exact S1 |]. split; [exact S2 |].
  split; [exact R1 |]. split; [exact R3 | exact R4].
Defined.

(** ** The effect on [value] *)

(** C10. When [value] is a [Date] the effect leaves the state, and so the
    start and end of the range, as they are: [typeof value] is ['object'],
    so the first branch is not taken, and a date has no [from] property, so
    neither is the second.  Only a range-shaped [value] makes the effect
    write the start or the end of the range. *)
Theorem valueEffect_date_leaves_range (d : Date) (st : State) :
  valueEffect (Some (ofDate d)) st = st
  /\ rangeStart (valueEffect (Some (ofDate d)) st) = rangeStart st
  /\ rangeEnd (valueEffect (Some (ofDate d)) st) = rangeEnd st
  /\ typeof (ofDate d) = js_object
  /\ has_from (ofDate d) = false
  /\ (forall v st',
        rangeStart (valueEffect v st') <> rangeStart st'
        \/ rangeEnd (valueEffect v st') <> rangeEnd st' ->
        exists r, v = Some (ofRange r) /\ from r <> absent).
Proof.
  repeat split.
  intros v st' H.
  destruct v as [[d' | r] |].
  - exfalso. destruct H as [H | H]; apply H; reflexivity.
  - exists r. split; [reflexivity |].
    intros Ha. unfold valueEffect, has_from in H. simpl typeof in H.
    rewrite Ha in H. destruct H as [H | H]; apply H; reflexivity.
  - exfalso. destruct H as [H | H]; apply H; reflexivity.
Qed.

Lemma valueEffect_date_leaves_range_witness :
  let picked :=
    fst (fireAll rangePickerOpened
           [Click (newDate 2024 2 10); Click (newDate 2024 2 5)]) in
  let range :=
    {| from := holds (Some (newDate 2024 0 1)); to := holds None |} in
  valueEffect (Some (ofDate (newDate 2024 0 1))) picked = picked
  /\ rangeState picked = Some (Complete (newDate 2024 2 5) (newDate 2024 2 10))
  /\ rangeState (valueEffect (Some (ofRange range)) picked)
       = Some (StartSelected (newDate 2024 0 1))
  /\ exists r, Some (ofRange range) = Some (ofRange r) /\ from r <> absent.
Proof.
  intros picked range.
  destruct (valueEffect_date_leaves_range (newDate 2024 0 1) picked)
    as (H1 & _ & _ & _ & _ & H6).
  split; [exact H1 |]. split; [reflexivity |]. split; [reflexivity |].
  apply (H6 (Some (ofRange range)) picked).
  left. discriminate.
Defined.

(** * Further properties: navigation, membership, display, invariants *)

(** ** More facts about dates *)

Lemma leap_flag (y : Z) :
  (if isLeapYear y then 1 else 0) = 0 /\ DaysInYear y = 365 /\ isLeapYear y = false
  \/ (if isLeapYear y then 1 else 0) = 1 /\ DaysInYear y = 366 /\ isLeapYear y = true.
Proof. unfold DaysInYear. destruct (isLeapYear y); auto. Qed.

Lemma DayWithinYear_range (t : Z) :
  0 <= DayWithinYear t < DaysInYear (YearFromTime t).
Proof.
  unfold DayWithinYear, YearFromTime.
  pose proof (YearFromDay_bounds (Day t)) as B.
  rewrite DayFromYear_succ in B. lia.
Qed.

(** A day of the year lies in the month [monthOfYearDay] gives it. *)
Lemma monthOfYearDay_within (y d : Z) :
  0 <= d < DaysInYear y ->
  let l := if isLeapYear y then 1 else 0 in
  let m := monthOfYearDay l d in
  monthStart l m <= d < monthStart l m + daysOfMonth y m.
Proof.
  intros Hd l m. subst m. unfold daysOfMonth, monthOfYearDay, DaysInYear in *.
  subst l. destruct (isLeapYear y);
    repeat match goal with
           | |- context [if ?a <? ?b then _ else _] =>
               destruct (Z.ltb_spec a b)
           end;
    cbv beta iota delta [monthStart]; lia.
Qed.

(** The day of the month of any date exists in its month. *)
Lemma getDate_range (t : Date) :
  1 <= getDate t <= daysOfMonth (getFullYear t) (getMonth t).
Proof.
  pose proof (monthOfYearDay_within (YearFromTime t) (DayWithinYear t)
                (DayWithinYear_range t)) as H.
  cbv zeta in H.
  unfold getDate, DateFromTime, getFullYear, getMonth, MonthFromTime, InLeapYear.
  lia.
Qed.

(** A date is rebuilt from its year, month, day and time of day. *)
Lemma date_of_fields (t : Date) :
  MakeDate (MakeDay (getFullYear t) (getMonth t) (getDate t)) (TimeWithinDay t) = t.
Proof.
  rewrite (MakeDay_in_year (getFullYear t) (getMonth t) (getMonth_range t)).
  unfold getDate, DateFromTime, getFullYear, getMonth, MonthFromTime, InLeapYear,
    DayWithinYear, MakeDate, TimeWithinDay, Day, msPerDay.
  set (ms := monthStart _ _).
  Z.to_euclidean_division_equations. lia.
Qed.

(** Twelve months carry over into one year. *)
Lemma MakeDay_carry (year q r date : Z) :
  0 <= r <= 11 ->
  MakeDay year (12 * q + r) date = MakeDay (year + q) r date.
Proof.
  intros Hr. unfold MakeDay.
  replace ((12 * q + r) / 12) with q by (Z.to_euclidean_division_equations; lia).
  replace ((12 * q + r) mod 12) with r by (Z.to_euclidean_division_equations; lia).
  replace (r / 12) with 0 by (Z.to_euclidean_division_equations; lia).
  replace (r mod 12) with r by (Z.to_euclidean_division_equations; lia).
  rewrite Z.add_0_r. reflexivity.
Qed.

(** The fields of a date given by year, any month count and a day that
    exists in the month reached. *)
Lemma civil_fields_carry (year months date time : Z) :
  1 <= date <= daysOfMonth (year + months / 12) (months mod 12) ->
  0 <= time < msPerDay ->
  getFullYear (MakeDate (MakeDay year months date) time) = year + months / 12
  /\ getMonth (MakeDate (MakeDay year months date) time) = months mod 12
  /\ getDate (MakeDate (MakeDay year months date) time) = date.
Proof.
  intros Hd Ht.
  assert (Hr : 0 <= months mod 12 <= 11)
    by (Z.to_euclidean_division_equations; lia).
  rewrite (Z.div_mod months 12) at 1 3 5 by lia.
  rewrite MakeDay_carry by exact Hr.
  apply (civil_fields (year + months / 12) (months mod 12) Hr date time Hd Ht).
Qed.

Lemma MakeDay_day_zero_carry (year months : Z) :
  MakeDay year (months + 1) 0 =
  MakeDay year months (daysOfMonth (year + months / 12) (months mod 12)).
Proof.
  assert (Hr : 0 <= months mod 12 <= 11)
    by (Z.to_euclidean_division_equations; lia).
  rewrite (Z.div_mod months 12) at 1 2 by lia.
  rewrite MakeDay_carry by exact Hr.
  rewrite <- (MakeDay_day_zero (year + months / 12) (months mod 12) Hr).
  replace (12 * (months / 12) + months mod 12 + 1)
    with (12 * (months / 12) + (months mod 12 + 1)) by lia.
  unfold MakeDay.
  replace ((12 * (months / 12) + (months mod 12 + 1)) / 12)
    with (months / 12 + (months mod 12 + 1) / 12)
    by (Z.to_euclidean_division_equations; lia).
  replace ((12 * (months / 12) + (months mod 12 + 1)) mod 12)
    with ((months mod 12 + 1) mod 12)
    by (Z.to_euclidean_division_equations; lia).
  rewrite Z.add_assoc. reflexivity.
Qed.

Lemma TimeWithinDay_MakeDate (day time : Z) :
  0 <= time < msPerDay -> TimeWithinDay (MakeDate day time) = time.
Proof.
  intros H. unfold TimeWithinDay, MakeDate, msPerDay in *.
  Z.to_euclidean_division_equations. lia.
Qed.

Lemma Date_setMonth_eq (d : Date) (month date : Z) :
  Date_setMonth d month date =
  MakeDate (MakeDay (getFullYear d) month date) (TimeWithinDay d).
Proof. reflexivity. Qed.

Lemma setFullYear_eq (d : Date) (year month date : Z) :
  setFullYear d year month date =
  MakeDate (MakeDay year month date) (TimeWithinDay d).
Proof. reflexivity. Qed.

(** [addMonths] lands in the month [amount] months away, keeps the time of
    day, and keeps the day of the month unless that month is too short, in
    which case it gives its last day. *)
Lemma addMonths_fields (d : Date) (amount : Z) :
  getFullYear (addMonths d amount)
    = getFullYear d + (getMonth d + amount) / 12
  /\ getMonth (addMonths d amount) = (getMonth d + amount) mod 12
  /\ getDate (addMonths d amount)
     = Z.min (getDate d)
         (daysOfMonth (getFullYear d + (getMonth d + amount) / 12)
                      ((getMonth d + amount) mod 12))
  /\ TimeWithinDay (addMonths d amount) = TimeWithinDay d.
Proof.
  pose proof (getMonth_range d) as Hm.
  pose proof (getDate_range d) as Hd.
  pose proof (TimeWithinDay_range d) as Ht.
  unfold addMonths.
  destruct (Z.eqb_spec amount 0) as [E | E].
  - subst amount. rewrite Z.add_0_r.
    replace (getMonth d / 12) with 0 by (Z.to_euclidean_division_equations; lia).
    replace (getMonth d mod 12) with (getMonth d)
      by (Z.to_euclidean_division_equations; lia).
    rewrite Z.add_0_r. repeat split; trivial. lia.
  - cbv zeta.
    set (months := getMonth d + amount).
    set (year' := getFullYear d + months / 12).
    set (month' := months mod 12).
    pose proof (daysOfMonth_range year' month') as HN.
    assert (Hend : getFullYear (Date_setMonth d (months + 1) 0) = year'
                   /\ getMonth (Date_setMonth d (months + 1) 0) = month'
                   /\ getDate (Date_setMonth d (months + 1) 0)
                      = daysOfMonth year' month').
    { rewrite Date_setMonth_eq, MakeDay_day_zero_carry.
      apply civil_fields_carry; [fold year' month'; lia | exact Ht]. }
    destruct Hend as (E1 & E2 & E3). rewrite E1, E2, E3.
    destruct (Z.leb_spec (daysOfMonth year' month') (getDate d)) as [L | L].
    + rewrite E1, E2, E3. repeat split; try lia.
      rewrite Date_setMonth_eq. apply TimeWithinDay_MakeDate, Ht.
    + rewrite setFullYear_eq.
      assert (Hr : 0 <= month' <= 11)
        by (unfold month'; Z.to_euclidean_division_equations; lia).
      destruct (civil_fields year' month' Hr (getDate d) (TimeWithinDay d))
        as (F1 & F2 & F3); [lia | exact Ht |].
      rewrite F1, F2, F3. repeat split; try lia.
      apply TimeWithinDay_MakeDate, Ht.
Qed.

Lemma only_february_29_is_missing (y0 y1 m dd : Z) :
  0 <= m <= 11 ->
  1 <= dd <= daysOfMonth y0 m ->
  daysOfMonth y1 m < dd ->
  m = 1 /\ dd = 29 /\ isLeapYear y1 = false.
Proof.
  intros Hm. unfold daysOfMonth.
  assert (Hc : m = 0 \/ m = 1 \/ m = 2 \/ m = 3 \/ m = 4 \/ m = 5 \/ m = 6
               \/ m = 7 \/ m = 8 \/ m = 9 \/ m = 10 \/ m = 11) by lia.
  repeat (destruct Hc as [Hc | Hc]); rewrite Hc; cbv beta iota;
    destruct (isLeapYear y0), (isLeapYear y1); intros; repeat split; lia.
Qed.

(** [setYear] lands in the year asked for: the only day that a year may
    lack, 29 February, becomes 1 March of that year. *)
Lemma setYear_fields (d : Date) (year : Z) :
  getFullYear (setYear d year) = year
  /\ TimeWithinDay (setYear d year) = TimeWithinDay d
  /\ (getDate d <= daysOfMonth year (getMonth d) ->
      getMonth (setYear d year) = getMonth d
      /\ getDate (setYear d year) = getDate d)
  /\ (daysOfMonth year (getMonth d) < getDate d ->
      getMonth (setYear d year) = 2 /\ getDate (setYear d year) = 1).
Proof.
  pose proof (getMonth_range d) as Hm.
  pose proof (getDate_range d) as Hd.
  pose proof (TimeWithinDay_range d) as Ht.
  assert (E : setYear d year =
              MakeDate (MakeDay year (getMonth d) (getDate d)) (TimeWithinDay d))
    by reflexivity.
  rewrite E.
  split; [| split; [apply TimeWithinDay_MakeDate, Ht |]].
  - destruct (Z.le_gt_cases (getDate d) (daysOfMonth year (getMonth d))) as [L | L].
    + apply (civil_fields year (getMonth d) Hm (getDate d) (TimeWithinDay d));
        [lia | exact Ht].
    + destruct (only_february_29_is_missing (getFullYear d) year
                  (getMonth d) (getDate d) Hm Hd L) as (M1 & M2 & M3).
      rewrite M1, M2.
      replace (MakeDay year 1 29) with (MakeDay year 2 1).
      * apply (civil_fields year 2 ltac:(lia) 1 (TimeWithinDay d));
          [unfold daysOfMonth; lia | exact Ht].
      * rewrite !MakeDay_in_year by lia. rewrite M3.
        cbv beta iota delta [monthStart]. lia.
  - split.
    + intros L.
      apply (civil_fields year (getMonth d) Hm (getDate d) (TimeWithinDay d));
        [lia | exact Ht].
    + intros L.
      destruct (only_february_29_is_missing (getFullYear d) year
                  (getMonth d) (getDate d) Hm Hd L) as (M1 & M2 & M3).
      rewrite M1, M2.
      replace (MakeDay year 1 29) with (MakeDay year 2 1).
      * apply (civil_fields year 2 ltac:(lia) 1 (TimeWithinDay d));
          [unfold daysOfMonth; lia | exact Ht].
      * rewrite !MakeDay_in_year by lia. rewrite M3.
        cbv beta iota delta [monthStart]. lia.
Qed.

(** [setMonth] of date-fns lands in the month asked for, in the same year,
    on the same day of the month or on the last one of a shorter month. *)
Lemma setMonth_fields (d : Date) (month : Z) :
  0 <= month <= 11 ->
  getFullYear (setMonth d month) = getFullYear d
  /\ getMonth (setMonth d month) = month
  /\ getDate (setMonth d month)
     = Z.min (getDate d) (daysOfMonth (getFullYear d) month)
  /\ TimeWithinDay (setMonth d month) = TimeWithinDay d.
Proof.
  intros Hm.
  pose proof (getDate_range d) as Hd.
  pose proof (TimeWithinDay_range d) as Ht.
  pose proof (daysOfMonth_range (getFullYear d) month) as HN.
  unfold setMonth. cbv zeta.
  rewrite getDaysInMonth_daysOfMonth.
  assert (Hmid : getFullYear (setHours0 (setFullYear epoch (getFullYear d) month 15))
                 = getFullYear d
                 /\ getMonth (setHours0 (setFullYear epoch (getFullYear d) month 15))
                    = month).
  { unfold setHours0. rewrite setFullYear_eq.
    rewrite Day_MakeDate by apply TimeWithinDay_range.
    destruct (civil_fields (getFullYear d) month Hm 15 0) as (F1 & F2 & _);
      [lia | unfold msPerDay; lia |].
    split; assumption. }
  destruct Hmid as [M1 M2]. rewrite M1, M2.
  rewrite Date_setMonth_eq.
  destruct (civil_fields (getFullYear d) month Hm
              (Z.min (getDate d) (daysOfMonth (getFullYear d) month))
              (TimeWithinDay d)) as (F1 & F2 & F3); [lia | exact Ht |].
  repeat split; trivial. apply TimeWithinDay_MakeDate, Ht.
Qed.

(** ** Month navigation *)

(** The month [amount] months after (or before) month [month] of [year]. *)
Lemma next_month_index (year month : Z) :
  0 <= month <= 11 ->
  year + (month + 1) / 12 = (if month =? 11 then year + 1 else year)
  /\ (month + 1) mod 12 = (if month =? 11 then 0 else month + 1).
Proof.
  intros H. destruct (Z.eqb_spec month 11);
    Z.to_euclidean_division_equations; lia.
Qed.

Lemma previous_month_index (year month : Z) :
  0 <= month <= 11 ->
  year + (month + - (1)) / 12 = (if month =? 0 then year - 1 else year)
  /\ (month + - (1)) mod 12 = (if month =? 0 then 11 else month - 1).
Proof.
  intros H. destruct (Z.eqb_spec month 0);
    Z.to_euclidean_division_equations; lia.
Qed.

Lemma nextMonth_state (now : Date) (st : State) :
  nextMonth now st =
    ({| selectedDate := selectedDate st;
        currentMonth := ofDate (addMonths (cursor now (currentMonth st)) 1);
        isOpen := isOpen st; view := view st; isRangeMode := isRangeMode st;
        rangeStart := rangeStart st; rangeEnd := rangeEnd st;
        rangeHover := rangeHover st |}, []).
Proof. reflexivity. Qed.

Lemma previousMonth_state (now : Date) (st : State) :
  previousMonth now st =
    ({| selectedDate := selectedDate st;
        currentMonth := ofDate (addMonths (cursor now (currentMonth st)) (- (1)));
        isOpen := isOpen st; view := view st; isRangeMode := isRangeMode st;
        rangeStart := rangeStart st; rangeEnd := rangeEnd st;
        rangeHover := rangeHover st |}, []).
Proof. reflexivity. Qed.

(** X1. [nextMonth] moves the calendar to the following month, December
    being followed by January of the next year; the day of the month is kept
    unless the new month is too short, in which case it becomes its last
    day; the time of day is kept.  Nothing is selected, cleared or called,
    and the panel and the view stay as they are. *)
Theorem nextMonth_moves_to_following_month (now : Date) (st : State) :
  let cur := cursor now (currentMonth st) in
  let year' := if getMonth cur =? 11 then getFullYear cur + 1 else getFullYear cur in
  let month' := if getMonth cur =? 11 then 0 else getMonth cur + 1 in
  exists cur',
    currentMonth (fst (nextMonth now st)) = ofDate cur'
    /\ getFullYear cur' = year'
    /\ getMonth cur' = month'
    /\ getDate cur' = Z.min (getDate cur) (daysOfMonth year' month')
    /\ TimeWithinDay cur' = TimeWithinDay cur
    /\ snd (nextMonth now st) = []
    /\ selectedDate (fst (nextMonth now st)) = selectedDate st
    /\ rangeStart (fst (nextMonth now st)) = rangeStart st
    /\ rangeEnd (fst (nextMonth now st)) = rangeEnd st
    /\ rangeHover (fst (nextMonth now st)) = rangeHover st
    /\ isRangeMode (fst (nextMonth now st)) = isRangeMode st
    /\ isOpen (fst (nextMonth now st)) = isOpen st
    /\ view (fst (nextMonth now st)) = view st.
Proof.
  intros cur year' month'.
  exists (addMonths cur 1).
  rewrite nextMonth_state.
  destruct (addMonths_fields cur 1) as (A1 & A2 & A3 & A4).
  destruct (next_month_index (getFullYear cur) (getMonth cur) (getMonth_range cur))
    as [N1 N2].
  rewrite N1, N2 in *.
  repeat split; assumption.
Qed.

(** X2. [previousMonth] moves the calendar to the month before, January
    being preceded by December of the year before, with the same rule for
    the day of the month, and touches nothing else. *)
Theorem previousMonth_moves_to_preceding_month (now : Date) (st : State) :
  let cur := cursor now (currentMonth st) in
  let year' := if getMonth cur =? 0 then getFullYear cur - 1 else getFullYear cur in
  let month' := if getMonth cur =? 0 then 11 else getMonth cur - 1 in
  exists cur',
    currentMonth (fst (previousMonth now st)) = ofDate cur'
    /\ getFullYear cur' = year'
    /\ getMonth cur' = month'
    /\ getDate cur' = Z.min (getDate cur) (daysOfMonth year' month')
    /\ TimeWithinDay cur' = TimeWithinDay cur
    /\ snd (previousMonth now st) = []
    /\ selectedDate (fst (previousMonth now st)) = selectedDate st
    /\ rangeStart (fst (previousMonth now st)) = rangeStart st
    /\ rangeEnd (fst (previousMonth now st)) = rangeEnd st
    /\ rangeHover (fst (previousMonth now st)) = rangeHover st
    /\ isRangeMode (fst (previousMonth now st)) = isRangeMode st
    /\ isOpen (fst (previousMonth now st)) = isOpen st
    /\ view (fst (previousMonth now st)) = view st.
Proof.
  intros cur year' month'.
  exists (addMonths cur (- (1))).
  rewrite previousMonth_state.
  destruct (addMonths_fields cur (- (1))) as (A1 & A2 & A3 & A4).
  destruct (previous_month_index (getFullYear cur) (getMonth cur)
              (getMonth_range cur)) as [N1 N2].
  rewrite N1, N2 in *.
  repeat split; assumption.
Qed.

(** The grid depends on the year and the month of the cursor only. *)
Lemma calendarDays_same_month (now1 now2 : Date) (cm1 cm2 : DateValue) :
  getFullYear (cursor now1 cm1) = getFullYear (cursor now2 cm2) ->
  getMonth (cursor now1 cm1) = getMonth (cursor now2 cm2) ->
  calendarDays now1 cm1 = calendarDays now2 cm2.
Proof.
  intros Hy Hm. rewrite !calendarDays_cells.
  unfold firstOfMonth. rewrite Hy, Hm. reflexivity.
Qed.

Lemma addMonths_there_and_back (d : Date) (amount : Z) :
  getFullYear (addMonths (addMonths d amount) (- amount)) = getFullYear d
  /\ getMonth (addMonths (addMonths d amount) (- amount)) = getMonth d
  /\ getDate (addMonths (addMonths d amount) (- amount))
     = Z.min (getDate d)
         (daysOfMonth (getFullYear d + (getMonth d + amount) / 12)
                      ((getMonth d + amount) mod 12)).
Proof.
  pose proof (getMonth_range d) as Hm.
  pose proof (getDate_range d) as Hd.
  destruct (addMonths_fields d amount) as (A1 & A2 & A3 & _).
  destruct (addMonths_fields (addMonths d amount) (- amount))
    as (B1 & B2 & B3 & _).
  rewrite A1, A2, A3 in *. clear A1 A2 A3.
  assert (E1 : getFullYear d + (getMonth d + amount) / 12
               + ((getMonth d + amount) mod 12 + - amount) / 12 = getFullYear d)
    by (Z.to_euclidean_division_equations; lia).
  assert (E2 : ((getMonth d + amount) mod 12 + - amount) mod 12 = getMonth d)
    by (Z.to_euclidean_division_equations; lia).
  rewrite E1, E2 in *.
  repeat split; trivial. lia.
Qed.

(** X3. [nextMonth] followed by [previousMonth], and [previousMonth]
    followed by [nextMonth], bring the calendar back to the same year and
    month, so to the same grid.  The day of the month of the cursor is not
    always restored: it comes back cut down to the length of the month
    passed through (31 January comes back as 29 or 28 January). *)
Theorem next_and_previous_month_undo_each_other (now1 now2 : Date) (st : State) :
  let cur := cursor now1 (currentMonth st) in
  let there := fst (previousMonth now2 (fst (nextMonth now1 st))) in
  let back := fst (nextMonth now2 (fst (previousMonth now1 st))) in
  (getFullYear (cursor now2 (currentMonth there)) = getFullYear cur
   /\ getMonth (cursor now2 (currentMonth there)) = getMonth cur
   /\ getDate (cursor now2 (currentMonth there))
      = Z.min (getDate cur)
          (daysOfMonth (getFullYear cur + (getMonth cur + 1) / 12)
                       ((getMonth cur + 1) mod 12))
   /\ calendarDays now2 (currentMonth there) = calendarDays now1 (currentMonth st))
  /\ (getFullYear (cursor now2 (currentMonth back)) = getFullYear cur
      /\ getMonth (cursor now2 (currentMonth back)) = getMonth cur
      /\ getDate (cursor now2 (currentMonth back))
         = Z.min (getDate cur)
             (daysOfMonth (getFullYear cur + (getMonth cur + - (1)) / 12)
                          ((getMonth cur + - (1)) mod 12))
      /\ calendarDays now2 (currentMonth back) = calendarDays now1 (currentMonth st)).
Proof.
  intros cur there back.
  assert (Ht : currentMonth there = ofDate (addMonths (addMonths cur 1) (- (1)))).
  { unfold there. rewrite (nextMonth_state now1 st). cbn [fst].
    rewrite previousMonth_state. cbn [fst currentMonth cursor]. reflexivity. }
  assert (Hb : currentMonth back = ofDate (addMonths (addMonths cur (- (1))) 1)).
  { unfold back. rewrite (previousMonth_state now1 st). cbn [fst].
    rewrite nextMonth_state. cbn [fst currentMonth cursor]. reflexivity. }
  clearbody there back.
  destruct (addMonths_there_and_back cur 1) as (T1 & T2 & T3).
  destruct (addMonths_there_and_back cur (- (1))) as (B1 & B2 & B3).
  change (- - (1)) with 1 in B1, B2, B3.
  assert (Gt : calendarDays now2 (currentMonth there)
               = calendarDays now1 (currentMonth st)).
  { apply calendarDays_same_month; rewrite Ht; cbn [cursor]; fold cur;
      [exact T1 | exact T2]. }
  assert (Gb : calendarDays now2 (currentMonth back)
               = calendarDays now1 (currentMonth st)).
  { apply calendarDays_same_month; rewrite Hb; cbn [cursor]; fold cur;
      [exact B1 | exact B2]. }
  rewrite Ht in Gt |- *. rewrite Hb in Gb |- *. cbn [cursor].
  split.
  - split; [exact T1 |]. split; [exact T2 |]. split; [exact T3 | exact Gt].
  - split; [exact B1 |]. split; [exact B2 |]. split; [exact B3 | exact Gb].
Qed.

(** ** Picking a month in the years view *)

Lemma handleMonthSelect_state (now : Date) (st : State) (year monthIndex : Z) :
  handleMonthSelect now st year monthIndex =
    ({| selectedDate := selectedDate st;
        currentMonth :=
          ofDate (setMonth (setYear (cursor now (currentMonth st)) year) monthIndex);
        isOpen := isOpen st; view := days; isRangeMode := isRangeMode st;
        rangeStart := rangeStart st; rangeEnd := rangeEnd st;
        rangeHover := rangeHover st |}, []).
Proof. reflexivity. Qed.

Lemma handleMonthSelect_lands_on_month_aux
    (now : Date) (st : State) (year monthIndex : Z) :
  0 <= monthIndex <= 11 ->
  getFullYear (setMonth (setYear (cursor now (currentMonth st)) year) monthIndex)
    = year
  /\ getMonth (setMonth (setYear (cursor now (currentMonth st)) year) monthIndex)
     = monthIndex.
Proof.
  intros Hm.
  destruct (setYear_fields (cursor now (currentMonth st)) year) as (Y1 & _).
  destruct (setMonth_fields (setYear (cursor now (currentMonth st)) year)
              monthIndex Hm) as (M1 & M2 & _).
  split; [rewrite M1; exact Y1 | exact M2].
Qed.

(** X4. Picking month [monthIndex] (one of the twelve buttons) of [year]
    puts the calendar on exactly that month of that year, whatever the date
    it was on, 29 February included, and shows the days view, whatever the
    view was.  The time of day of the cursor is kept; nothing is selected,
    cleared or called. *)
Theorem handleMonthSelect_lands_on_month
    (now : Date) (st : State) (year monthIndex : Z) :
  0 <= monthIndex <= 11 ->
  exists cur',
    currentMonth (fst (handleMonthSelect now st year monthIndex)) = ofDate cur'
    /\ getFullYear cur' = year
    /\ getMonth cur' = monthIndex
    /\ 1 <= getDate cur' <= getDate (cursor now (currentMonth st))
    /\ TimeWithinDay cur' = TimeWithinDay (cursor now (currentMonth st))
    /\ view (fst (handleMonthSelect now st year monthIndex)) = days
    /\ snd (handleMonthSelect now st year monthIndex) = []
    /\ selectedDate (fst (handleMonthSelect now st year monthIndex)) = selectedDate st
    /\ rangeStart (fst (handleMonthSelect now st year monthIndex)) = rangeStart st
    /\ rangeEnd (fst (handleMonthSelect now st year monthIndex)) = rangeEnd st
    /\ rangeHover (fst (handleMonthSelect now st year monthIndex)) = rangeHover st
    /\ isRangeMode (fst (handleMonthSelect now st year monthIndex)) = isRangeMode st
    /\ isOpen (fst (handleMonthSelect now st year monthIndex)) = isOpen st.
Proof.
  intros Hm.
  set (cur := cursor now (currentMonth st)).
  exists (setMonth (setYear cur year) monthIndex).
  rewrite handleMonthSelect_state. fold cur.
  destruct (setYear_fields cur year) as (Y1 & Y2 & Y3 & Y4).
  destruct (setMonth_fields (setYear cur year) monthIndex Hm)
    as (M1 & M2 & M3 & M4).
  pose proof (getDate_range cur) as Hd.
  pose proof (getDate_range (setYear cur year)) as Hd'.
  pose proof (daysOfMonth_range (getFullYear (setYear cur year)) monthIndex) as HN.
  assert (Hle : getDate (setYear cur year) <= getDate cur).
  { destruct (Z.le_gt_cases (getDate cur) (daysOfMonth year (getMonth cur)))
      as [L | L].
    - destruct (Y3 L) as [_ E]. lia.
    - destruct (Y4 L) as [_ E]. lia. }
  split; [reflexivity |].
  split; [rewrite M1; exact Y1 |].
  split; [exact M2 |].
  split; [lia |].
  split; [rewrite M4; exact Y2 |].
  repeat split.
Qed.

(** ** The years view *)

Section Picking.

Context {A : Type}.

Lemma filter_flat_map' {B : Type} (f : A -> bool) (g : B -> list A) (l : list B) :
  filter f (flat_map g l) = flat_map (fun x => filter f (g x)) l.
Proof.
  induction l as [| x l IH]; [reflexivity |].
  cbn [flat_map]. rewrite filter_app, IH. reflexivity.
Qed.

Lemma filter_map' {B : Type} (f : A -> bool) (g : B -> A) (l : list B) :
  filter f (map g l) = map g (filter (fun x => f (g x)) l).
Proof.
  induction l as [| x l IH]; [reflexivity |].
  cbn [map filter]. destruct (f (g x)); cbn [map]; rewrite IH; reflexivity.
Qed.

Lemma filter_none (f : A -> bool) (l : list A) :
  (forall x, f x = false) -> filter f l = [].
Proof.
  intros H. induction l as [| x l IH]; [reflexivity |].
  cbn [filter]. rewrite H. exact IH.
Qed.

(** Among consecutive numbers, the one equal to [c], if it is there. *)
Lemma pick_from_days (g : Z -> list A) (c : Z) (n : nat) (lo : Z) :
  flat_map (fun y => if y =? c then g y else []) (daysFrom lo n) =
  if (lo <=? c) && (c <? lo + Z.of_nat n) then g c else [].
Proof.
  revert lo. induction n as [| n IH]; intros lo.
  - cbn [daysFrom flat_map].
    destruct (Z.leb_spec lo c), (Z.ltb_spec c (lo + Z.of_nat 0));
      cbn [andb]; trivial; lia.
  - cbn [daysFrom flat_map]. rewrite IH.
    destruct (Z.eqb_spec lo c) as [E | E].
    + subst lo.
      destruct (Z.leb_spec (c + 1) c); [lia |].
      destruct (Z.leb_spec c c); [| lia].
      destruct (Z.ltb_spec c (c + Z.of_nat (S n))); [| lia].
      cbn [andb]. apply app_nil_r.
    + cbn [app].
      destruct (Z.leb_spec (lo + 1) c), (Z.leb_spec lo c),
        (Z.ltb_spec c (lo + 1 + Z.of_nat n)),
        (Z.ltb_spec c (lo + Z.of_nat (S n))); cbn [andb]; trivial; lia.
Qed.

End Picking.

Lemma daysFrom_shift (a lo : Z) (n : nat) :
  map (fun i => a + i) (daysFrom lo n) = daysFrom (a + lo) n.
Proof.
  revert lo. induction n as [| n IH]; intros lo; [reflexivity |].
  cbn [daysFrom map]. rewrite IH. f_equal. f_equal. lia.
Qed.

Lemma yearsShown_are_1950_to_2050 : yearsShown = daysFrom 1950 101.
Proof.
  unfold yearsShown, arrayFrom. rewrite daysFrom_shift. reflexivity.
Qed.

Lemma filter_is_pick {A : Type} (f : A -> bool) (l : list A) :
  filter f l = flat_map (fun x => if f x then [x] else []) l.
Proof.
  induction l as [| x l IH]; [reflexivity |].
  cbn [filter flat_map]. rewrite IH. destruct (f x); reflexivity.
Qed.

(** The buttons of the years view that are highlighted, for a cursor in
    month [cm] of year [cy]. *)
Lemma highlighted_buttons (cy cm : Z) :
  0 <= cm <= 11 ->
  filter (fun b => (snd b =? cm) && (fst b =? cy)) monthButtons =
  if (1950 <=? cy) && (cy <=? 2050) then [(cy, cm)] else [].
Proof.
  intros Hm. unfold monthButtons.
  rewrite filter_flat_map', yearsShown_are_1950_to_2050.
  rewrite (flat_map_ext _ (fun y => if y =? cy then [(y, cm)] else [])).
  - rewrite (pick_from_days (fun y => [(y, cm)]) cy 101 1950).
    destruct (Z.leb_spec 1950 cy), (Z.leb_spec cy 2050),
      (Z.ltb_spec cy (1950 + Z.of_nat 101)); cbn [andb]; trivial; lia.
  - intros y. rewrite filter_map'. cbn [fst snd].
    destruct (Z.eqb_spec y cy) as [E | E].
    + rewrite (filter_ext _ (fun i => i =? cm))
        by (intros i; apply andb_true_r).
      unfold monthIndexes. rewrite filter_is_pick.
      rewrite (pick_from_days (fun i => [i]) cm 12 0).
      destruct (Z.leb_spec 0 cm), (Z.ltb_spec cm (0 + Z.of_nat 12));
        cbn [andb]; try lia. reflexivity.
    + rewrite filter_none by (intros i; apply andb_false_r). reflexivity.
Qed.

(** X5. In the years view the highlighted month button is the one of the
    cursor's month and year, and it is the only one, when the cursor's year
    is one of the years listed, 1950 to 2050; for a cursor outside these
    years no button is highlighted.  After a month button has been picked,
    that button is the highlighted one. *)
Theorem years_view_highlights_cursor_month (now : Date) (st : State) :
  (filter (fun b => monthButtonIsDefault now st (fst b) (snd b)) monthButtons =
     if (1950 <=? currentYear now st) && (currentYear now st <=? 2050)
     then [(currentYear now st, currentMonthIndex now st)]
     else [])
  /\ (forall now' year index,
        In (year, index) monthButtons ->
        filter (fun b =>
                  monthButtonIsDefault now'
                    (fst (handleMonthSelect now st year index)) (fst b) (snd b))
          monthButtons = [(year, index)]).
Proof.
  split.
  - unfold monthButtonIsDefault.
    apply highlighted_buttons. apply getMonth_range.
  - intros now' year index Hin.
    assert (Hb : (1950 <= year <= 2050) /\ 0 <= index <= 11).
    { unfold monthButtons in Hin. apply in_flat_map in Hin.
      destruct Hin as (y & Hy & Hi). apply in_map_iff in Hi.
      destruct Hi as (i & E & Hi).
      assert (Ey : year = y) by congruence.
      assert (Ei : index = i) by congruence.
      rewrite yearsShown_are_1950_to_2050 in Hy.
      apply In_nth_error in Hy. destruct Hy as [k Hk].
      apply In_nth_error in Hi. destruct Hi as [j Hj].
      unfold monthIndexes in Hj.
      assert (Kk : (k < length (daysFrom 1950 101))%nat)
        by (apply nth_error_Some; rewrite Hk; discriminate).
      assert (Kj : (j < length (daysFrom 0 12))%nat)
        by (apply nth_error_Some; rewrite Hj; discriminate).
      rewrite daysFrom_length in Kk, Kj.
      rewrite daysFrom_nth in Hk, Hj by assumption.
      assert (Fy : y = 1950 + Z.of_nat k) by congruence.
      assert (Fi : i = 0 + Z.of_nat j) by congruence.
      lia. }
    destruct Hb as [Hy Hi].
    destruct (handleMonthSelect_lands_on_month_aux now st year index Hi)
      as (E1 & E2).
    unfold monthButtonIsDefault, currentYear, currentMonthIndex.
    rewrite (handleMonthSelect_state now st year index).
    cbn [fst currentMonth cursor]. rewrite E1, E2.
    rewrite (highlighted_buttons year index Hi).
    destruct (Z.leb_spec 1950 year), (Z.leb_spec year 2050);
      cbn [andb]; trivial; lia.
Qed.

(** ** Range membership *)

(** Between the start of a day and the end of a later (or the same) day lie
    the times of the days from the one to the other. *)
Lemma isWithinInterval_days (day s e : Date) :
  Day s <= Day e ->
  isWithinInterval day (startOfDay s) (endOfDay e) =
  (Day s <=? Day day) && (Day day <=? Day e).
Proof.
  intros Hse.
  unfold isWithinInterval, startOfDay, setHours0, endOfDay, getTime, MakeDate.
  assert (Hd : Day day * msPerDay <= day < Day day * msPerDay + msPerDay).
  { unfold Day, msPerDay. Z.to_euclidean_division_equations. lia. }
  set (ds := Day s) in *. set (de := Day e) in *. set (dd := Day day) in *.
  clearbody ds de dd. unfold msPerDay in *.
  destruct (Z.leb_spec ds dd), (Z.leb_spec dd de); cbn [andb];
    repeat match goal with
           | |- context [?a <=? ?b] => destruct (Z.leb_spec a b)
           end; cbn [andb]; trivial; lia.
Qed.

Lemma Day_le (a b : Date) : a <= b -> Day a <= Day b.
Proof.
  intros H. unfold Day, msPerDay. Z.to_euclidean_division_equations. lia.
Qed.

(** X6. In range mode, once a range is complete with its start not after
    its end, a day is in the range exactly when it is the day of the start,
    the day of the end or a day between them, whatever its time of day and
    whatever the last hover preview was. *)
Theorem isInRange_complete_range (st : State) (s e day : Date) :
  isRangeMode st = true ->
  rangeState st = Some (Complete s e) ->
  getTime s <= getTime e ->
  (isInRange st day = true <-> Day s <= Day day <= Day e).
Proof.
  intros Hm Hs Hse. unfold rangeState in Hs. unfold isInRange.
  rewrite Hm. cbn [negb].
  destruct (rangeStart st) as [s' |], (rangeEnd st) as [e' |]; try discriminate.
  assert (Es : s' = s) by congruence. assert (Ee : e' = e) by congruence.
  subst s' e'.
  rewrite isWithinInterval_days by (apply Day_le, Hse).
  rewrite andb_true_iff, !Z.leb_le. tauto.
Qed.

(** X7. In range mode, while only a start is selected and a day is
    hovered, a day is in the previewed range exactly when it lies between the
    day of the start and the hovered day, in either order: hovering before
    the start previews the range backwards. *)
Theorem isInRange_hover_preview (st : State) (s h day : Date) :
  isRangeMode st = true ->
  rangeState st = Some (StartSelected s) ->
  rangeHover st = Some h ->
  (isInRange st day = true <->
   Z.min (Day s) (Day h) <= Day day <= Z.max (Day s) (Day h)).
Proof.
  intros Hm Hs Hh. unfold rangeState in Hs. unfold isInRange.
  rewrite Hm, Hh. cbn [negb].
  destruct (rangeStart st) as [s' |], (rangeEnd st) as [e' |]; try discriminate.
  assert (Es : s' = s) by congruence. subst s'.
  unfold isAfter, getTime.
  destruct (Z.ltb_spec s h) as [L | L].
  - assert (D : Day s <= Day h) by (apply Day_le; lia).
    rewrite isWithinInterval_days by exact D.
    rewrite andb_true_iff, !Z.leb_le. lia.
  - assert (D : Day h <= Day s) by (apply Day_le; lia).
    rewrite isWithinInterval_days by exact D.
    rewrite andb_true_iff, !Z.leb_le. lia.
Qed.

Lemma isInRange_complete_range_witness :
  let st :=
    fst (fireAll rangePickerOpened
           [Click (newDate 2024 2 10); Hover (newDate 2024 2 20);
            Click (newDate 2024 2 5)]) in
  (isInRange st (newDate 2024 2 7 + 3600000) = true <->
   Day (newDate 2024 2 5) <= Day (newDate 2024 2 7 + 3600000)
   <= Day (newDate 2024 2 10))
  /\ isInRange st (newDate 2024 2 7 + 3600000) = true
  /\ isInRange st (newDate 2024 2 20) = false.
Proof.
  intros st.
  split; [| split; reflexivity].
  apply (isInRange_complete_range st (newDate 2024 2 5) (newDate 2024 2 10)).
  - reflexivity.
  - reflexivity.
  - vm_compute. discriminate.
Defined.

Lemma isInRange_hover_preview_witness :
  let st :=
    fst (fireAll rangePickerOpened
           [Click (newDate 2024 2 10); Hover (newDate 2024 2 5)]) in
  (isInRange st (newDate 2024 2 7) = true <->
   Z.min (Day (newDate 2024 2 10)) (Day (newDate 2024 2 5))
   <= Day (newDate 2024 2 7)
   <= Z.max (Day (newDate 2024 2 10)) (Day (newDate 2024 2 5)))
  /\ isInRange st (newDate 2024 2 7) = true
  /\ isInRange st (newDate 2024 2 11) = false.
Proof.
  intros st.
  split; [| split; reflexivity].
  apply (isInRange_hover_preview st (newDate 2024 2 10) (newDate 2024 2 5));
    reflexivity.
Defined.

(** X8. No day is in range outside range mode, before a start is
    selected, or while a start is selected and nothing is hovered: right
    after the first click of a selection the start day is marked as the
    start and is not in range.  For a complete range whose start is not
    after its end, the days marked as its start and as its end are in range;
    while a start is selected and a day is hovered, the day marked as the
    start is in the previewed range. *)
Theorem isInRange_never_without_range_and_holds_of_markers (st : State) (day : Date) :
  (isRangeMode st = false -> isInRange st day = false)
  /\ (rangeStart st = None -> isInRange st day = false)
  /\ (rangeEnd st = None -> rangeHover st = None -> isInRange st day = false)
  /\ (forall s e, rangeState st = Some (Complete s e) -> getTime s <= getTime e ->
        (isRangeStart st day = true -> isInRange st day = true)
        /\ (isRangeEnd st day = true -> isInRange st day = true))
  /\ (forall s h, rangeState st = Some (StartSelected s) -> rangeHover st = Some h ->
        isRangeStart st day = true -> isInRange st day = true)
  /\ (forall s, isRangeMode st = true ->
        rangeState st = Some (StartSelected s) -> rangeHover st = None ->
        isRangeStart st s = true /\ isInRange st s = false).
Proof.
  split; [| split; [| split; [| split; [| split]]]].
  - intros Hm. unfold isInRange. rewrite Hm. reflexivity.
  - intros Hs. unfold isInRange. rewrite Hs.
    destruct (isRangeMode st); reflexivity.
  - intros He Hh. unfold isInRange. rewrite He, Hh.
    destruct (isRangeMode st), (rangeStart st); reflexivity.
  - intros s e Hs Hse. unfold rangeState in Hs.
    pose proof (Day_le s e Hse) as D.
    unfold isRangeStart, isRangeEnd, isInRange.
    destruct (rangeStart st) as [s' |], (rangeEnd st) as [e' |]; try discriminate.
    assert (Es : s' = s) by congruence. assert (Ee : e' = e) by congruence.
    subst s' e'. destruct (isRangeMode st); cbn [negb orb truthy];
      [| split; discriminate].
    rewrite isWithinInterval_days by exact D.
    rewrite !isSameDay_Day, andb_true_iff, !Z.leb_le, !Z.eqb_eq. lia.
  - intros s h Hs Hh. unfold rangeState in Hs.
    unfold isRangeStart, isInRange. rewrite Hh.
    destruct (rangeStart st) as [s' |], (rangeEnd st) as [e' |]; try discriminate.
    assert (Es : s' = s) by congruence. subst s'.
    destruct (isRangeMode st); cbn [negb orb truthy]; [| discriminate].
    rewrite isSameDay_Day, Z.eqb_eq. intros E.
    unfold isAfter, getTime.
    destruct (Z.ltb_spec s h) as [L | L].
    + assert (D : Day s <= Day h) by (apply Day_le; lia).
      rewrite isWithinInterval_days by exact D.
      rewrite andb_true_iff, !Z.leb_le. lia.
    + assert (D : Day h <= Day s) by (apply Day_le; lia).
      rewrite isWithinInterval_days by exact D.
      rewrite andb_true_iff, !Z.leb_le. lia.
  - intros s Hm Hs Hh. unfold rangeState in Hs.
    unfold isRangeStart, isInRange. rewrite Hm, Hh.
    destruct (rangeStart st) as [s' |], (rangeEnd st) as [e' |]; try discriminate.
    assert (Es : s' = s) by congruence. subst s'.
    cbn [negb orb truthy]. split; [| reflexivity].
    rewrite isSameDay_Day. apply Z.eqb_refl.
Qed.

Lemma isInRange_after_first_click :
  let st := fst (fireAll rangePickerOpened [Click (newDate 2024 2 10)]) in
  isRangeStart st (newDate 2024 2 10) = true
  /\ isInRange st (newDate 2024 2 10) = false.
Proof.
  intros st.
  destruct (isInRange_never_without_range_and_holds_of_markers st (newDate 2024 2 10))
    as (_ & _ & _ & _ & _ & H).
  apply (H (newDate 2024 2 10)); reflexivity.
Defined.

(** ** Invariants of a mounted picker *)

Lemma valuesChanged_app (c1 c2 : list Call) :
  valuesChanged (c1 ++ c2) = valuesChanged c1 ++ valuesChanged c2.
Proof. unfold valuesChanged. apply flat_map_app. Qed.

(** What holds at the start and is kept by every allowed command holds
    after any number of them, and so does what every command guarantees of
    the values it passes to [onValueChange]. *)
Lemma steps_invariant (p : Props) (Inv : State -> Prop)
    (P : option DateValue -> Prop) (allowed : Command -> Prop) :
  (forall st c, allowed c -> Inv st ->
     Inv (fst (step p st c)) /\ Forall P (valuesChanged (snd (step p st c)))) ->
  forall cs st, Forall allowed cs -> Inv st ->
    Inv (fst (steps p st cs)) /\ Forall P (valuesChanged (snd (steps p st cs))).
Proof.
  intros Hstep cs. induction cs as [| c cs IH]; intros st Hok Hinv.
  - split; [exact Hinv | constructor].
  - inversion Hok as [| c' cs' Hc Hcs]; subst.
    destruct (Hstep st c Hc Hinv) as [I1 V1].
    cbn [steps]. destruct (step p st c) as [st1 calls1].
    cbn [fst snd] in I1, V1.
    destruct (IH st1 Hcs I1) as [I2 V2].
    destruct (steps p st1 cs) as [st2 calls2].
    cbn [fst snd] in *. split; [exact I2 |].
    rewrite valuesChanged_app. apply Forall_app. split; assumption.
Qed.

(** Unfolds a handler on a state given by its cells. *)
Ltac handler :=
  cbv beta iota zeta delta
    [step handleSelect handleDayHover previousMonth nextMonth toggleView
     handleMonthSelect setRangeMode onCheckedChange handleReset onOpenChange
     valueEffect typeof has_from get_from get_to read setView
     run fold_left call skip app negb truthy orb andb fst snd
     setSelectedDate setCurrentMonth setIsOpen setIsRangeMode
     setRangeStart setRangeEnd setRangeHover
     selectedDate currentMonth isOpen view isRangeMode
     rangeStart rangeEnd rangeHover valuesChanged flat_map
     mode onReset defaultValue value from to].


Lemma mounted_is_a_step (p : Props) (now : Date) :
  mounted p now = fst (step p (initialState p now) (NewValue (value p))).
Proof. reflexivity. Qed.



Lemma single_mode_step (p : Props) (st : State) (c : Command) :
  mode p = Single ->
  anyCommand c ->
  isRangeMode st = false ->
  isRangeMode (fst (step p st c)) = false
  /\ Forall (fun v => singlePayload v = true) (valuesChanged (snd (step p st c))).
Proof.
  intros Hp _ Hm.
  destruct p as [md dv vl hasReset].
  destruct st as [sd cm io vw rm rs re rh].
  cbv beta iota delta [mode isRangeMode] in Hp, Hm. subst md rm.
  destruct c as [day | day | now | now | | now y m | b | | o | v];
    try (handler; split; [reflexivity | repeat constructor]; fail).
  - destruct hasReset; handler; split; try reflexivity; repeat constructor.
  - destruct v as [[d | [[| f] t]] |]; handler;
      split; try reflexivity; repeat constructor.
Qed.

Lemma range_mode_step (p : Props) (st : State) (c : Command) :
  mode p = Range ->
  anyCommand c ->
  isRangeMode st = true ->
  isRangeMode (fst (step p st c)) = true
  /\ Forall (fun v => rangePayload v = true) (valuesChanged (snd (step p st c))).
Proof.
  intros Hp _ Hm.
  destruct p as [md dv vl hasReset].
  destruct st as [sd cm io vw rm rs re rh].
  cbv beta iota delta [mode isRangeMode] in Hp, Hm. subst md rm.
  destruct c as [day | day | now | now | | now y m | b | | o | v];
    try (handler; split; [reflexivity | repeat constructor]; fail).
  - destruct rs as [s |], re as [e |]; handler;
      try (split; [reflexivity | repeat constructor]; fail).
    destruct (isAfter day s); handler; split; try reflexivity; repeat constructor.
  - destruct rs as [s |], re as [e |]; handler;
      split; try reflexivity; repeat constructor.
  - destruct hasReset; handler; split; try reflexivity; repeat constructor.
  - destruct v as [[d | [[| f] t]] |]; handler;
      split; try reflexivity; repeat constructor.
Qed.

Lemma Forall_anyCommand (cs : list Command) : Forall anyCommand cs.
Proof. apply Forall_forall. intros c _. exact I. Qed.

(** X10. A picker in single mode never enters range mode, and every value
    it passes to [onValueChange] is a date or [undefined], whatever is
    clicked, hovered, navigated, reset or passed as [value]. *)
Theorem single_mode_emits_dates_only (p : Props) (now : Date) (cs : list Command) :
  mode p = Single ->
  isRangeMode (fst (steps p (mounted p now) cs)) = false
  /\ Forall (fun v => singlePayload v = true)
       (valuesChanged (snd (steps p (mounted p now) cs))).
Proof.
  intros Hp.
  apply (steps_invariant p (fun st => isRangeMode st = false)
           (fun v => singlePayload v = true) anyCommand).
  - intros st c. apply single_mode_step, Hp.
  - apply Forall_anyCommand.
  - rewrite mounted_is_a_step.
    apply (single_mode_step p (initialState p now) (NewValue (value p)) Hp I).
    unfold initialState. cbn [isRangeMode]. rewrite Hp. reflexivity.
Qed.

(** X11. A picker in range mode never leaves range mode, and every value
    it passes to [onValueChange] is an object with both keys [from] and
    [to], holding two dates (a complete range) or [undefined] twice (after a
    reset): a range with one end only is never passed on. *)
Theorem range_mode_emits_whole_ranges_only (p : Props) (now : Date) (cs : list Command) :
  mode p = Range ->
  isRangeMode (fst (steps p (mounted p now) cs)) = true
  /\ Forall (fun v => rangePayload v = true)
       (valuesChanged (snd (steps p (mounted p now) cs))).
Proof.
  intros Hp.
  apply (steps_invariant p (fun st => isRangeMode st = true)
           (fun v => rangePayload v = true) anyCommand).
  - intros st c. apply range_mode_step, Hp.
  - apply Forall_anyCommand.
  - rewrite mounted_is_a_step.
    apply (range_mode_step p (initialState p now) (NewValue (value p)) Hp I).
    unfold initialState. cbn [isRangeMode]. rewrite Hp. reflexivity.
Qed.

Lemma single_mode_emits_dates_only_witness :
  valuesChanged
    (snd (steps singlePicker (mounted singlePicker (newDate 2024 2 1))
            [OpenChange true; HoverDay (newDate 2024 2 3);
             SelectDay (newDate 2024 2 10); Switch true; ClickClear]))
  = [Some (ofDate (newDate 2024 2 10)); None]
  /\ Forall (fun v => singlePayload v = true)
       (valuesChanged
          (snd (steps singlePicker (mounted singlePicker (newDate 2024 2 1))
                  [OpenChange true; HoverDay (newDate 2024 2 3);
                   SelectDay (newDate 2024 2 10); Switch true; ClickClear]))).
Proof.
  split; [reflexivity |].
  apply (single_mode_emits_dates_only singlePicker (newDate 2024 2 1)).
  reflexivity.
Defined.

Lemma range_mode_emits_whole_ranges_only_witness :
  isRangeMode (fst (steps resettableRangePicker
                      (mounted resettableRangePicker (newDate 2024 2 1))
                      (aSession ++ [Switch false]))) = true
  /\ Forall (fun v => rangePayload v = true)
       (valuesChanged
          (snd (steps resettableRangePicker
                  (mounted resettableRangePicker (newDate 2024 2 1))
                  (aSession ++ [Switch false])))).
Proof.
  apply (range_mode_emits_whole_ranges_only resettableRangePicker (newDate 2024 2 1)).
  reflexivity.
Defined.

(** ** The demo page *)

Lemma formatDateText_renders
    (format : Date -> String.string -> String.string)
    (v : option DateValue) (placeholder : String.string) :
  (rendered v = true <-> exists text, formatDateText format v placeholder = inl text)
  /\ (rendered v = false <-> formatDateText format v placeholder = inr Invalid_date).
Proof.
  unfold rendered, formatDateText.
  destruct v as [[d | r] |];
    [| destruct (read (from r)), (read (to r)) |]; cbn [truthy andb];
    (split; split; intros H; try discriminate; try reflexivity;
     try (eexists; reflexivity); try (destruct H as [t H]; discriminate)).
Qed.

Lemma rendered_step (p : Props) (st : State) (c : Command) :
  onReset p = false ->
  anyCommand c ->
  rendered (selectedDate st) = true ->
  rendered (selectedDate (fst (step p st c))) = true
  /\ Forall (fun v => rendered v = true) (valuesChanged (snd (step p st c))).
Proof.
  intros Hp _ Hs.
  destruct p as [md dv vl hasReset].
  destruct st as [sd cm io vw rm rs re rh].
  cbv beta iota delta [onReset selectedDate] in Hp, Hs. subst hasReset.
  destruct c as [day | day | now | now | | now y m | b | | o | v];
    try (handler; split; [exact Hs | repeat constructor]; fail).
  - destruct rm; [| handler; split; [reflexivity | repeat constructor]].
    destruct rs as [s |], re as [e |]; handler;
      try (split; [exact Hs | repeat constructor]; fail).
    destruct (isAfter day s); handler; split; try exact Hs; repeat constructor.
  - destruct rm, rs, re; handler; split; try exact Hs; repeat constructor.
  - destruct md; handler; try (split; [exact Hs | repeat constructor]; fail).
    destruct b; [destruct rs as [s |], re as [e |] | destruct sd];
      handler; split; try exact Hs; repeat constructor; exact Hs.
  - destruct v as [[d | [[| f] t]] |]; handler;
      split; try exact Hs; repeat constructor.
Qed.

(** X12. [formatDateText] of the demo page, which throws on a range that
    lacks an end, never throws on a value emitted by a picker that has no
    reset handler (as all three pickers of the page) and whose
    [defaultValue], if any, is a date or a complete range: whatever the
    user does and whatever [value] is passed, every emitted value is
    [undefined], a date or a range with both ends. *)
Theorem demo_page_renders_every_emitted_value
    (format : Date -> String.string -> String.string)
    (placeholder : String.string)
    (p : Props) (now : Date) (cs : list Command) :
  onReset p = false ->
  rendered (defaultValue p) = true ->
  Forall (fun v => exists text, formatDateText format v placeholder = inl text)
    (valuesChanged (snd (steps p (mounted p now) cs))).
Proof.
  intros Hp Hd.
  destruct (steps_invariant p (fun st => rendered (selectedDate st) = true)
              (fun v => rendered v = true) anyCommand
              (fun st c => rendered_step p st c Hp)
              cs (mounted p now) (Forall_anyCommand cs)) as [_ V].
  - rewrite mounted_is_a_step.
    apply (rendered_step p (initialState p now) (NewValue (value p)) Hp I).
    exact Hd.
  - eapply Forall_impl; [| exact V].
    intros v Hv. apply (formatDateText_renders format v placeholder), Hv.
Qed.

Lemma demo_page_renders_every_emitted_value_witness :
  let calls :=
    snd (steps demoDuoPicker (mounted demoDuoPicker (newDate 2024 2 1))
           [SelectDay (newDate 2024 0 1); Switch true;
            SelectDay (newDate 2024 2 10); Switch false; Switch true;
            SelectDay (newDate 2024 2 5); ClickClear]) in
  valuesChanged calls =
    [Some (ofDate (newDate 2024 0 1)); None;
     Some (ofDate (newDate 2024 0 1)); None;
     Some (ofRange {| from := holds (Some (newDate 2024 2 5));
                      to := holds (Some (newDate 2024 2 10)) |})]
  /\ Forall (fun v => exists text,
               formatDateText (fun _ pattern => pattern) v "pick a date"%string
               = inl text)
       (valuesChanged calls).
Proof.
  intros calls. split; [reflexivity |].
  apply (demo_page_renders_every_emitted_value (fun _ pattern => pattern)
           "pick a date"%string demoDuoPicker (newDate 2024 2 1));
    reflexivity.
Defined.

(** X13. With a reset handler, a reset in range mode passes
    [{from: undefined, to: undefined}] to [onValueChange], and
    [formatDateText] throws on that value: the demo page can render the
    range picker only as long as it passes no reset handler. *)
Theorem reset_in_range_mode_emits_value_that_throws
    (format : Date -> String.string -> String.string)
    (placeholder : String.string) (p : Props) (st : State) :
  onReset p = true ->
  isRangeMode st = true ->
  valuesChanged (snd (handleReset p st))
    = [Some (ofRange {| from := holds None; to := holds None |})]
  /\ formatDateText format
       (Some (ofRange {| from := holds None; to := holds None |})) placeholder
     = inr Invalid_date.
Proof.
  intros Hp Hm. rewrite (handleReset_range p st Hp Hm).
  split; reflexivity.
Qed.

Lemma reset_in_range_mode_emits_value_that_throws_witness :
  valuesChanged
    (snd (handleReset resettableRangePicker
            (fst (steps resettableRangePicker
                    (mounted resettableRangePicker (newDate 2024 2 1))
                    [SelectDay (newDate 2024 2 10)]))))
    = [Some (ofRange {| from := holds None; to := holds None |})]
  /\ formatDateText (fun _ pattern => pattern)
       (Some (ofRange {| from := holds None; to := holds None |}))
       "pick a range"%string
     = inr Invalid_date.
Proof.
  apply (reset_in_range_mode_emits_value_that_throws (fun _ pattern => pattern)
           "pick a range"%string resettableRangePicker); reflexivity.
Defined.

(** ** A controlled picker *)

(** X14. A consumer that controls the picker, passing back as [value]
    each value it receives through [onValueChange] (as the demo page does),
    does not disturb it: after a click, a reset or a flip of the switch, the
    effect run on the value just emitted leaves the state exactly as the
    handler left it.  For the switch this holds when the single value is a
    date or empty. *)
Theorem echoed_value_leaves_state (p : Props) (st : State) (c : Command) :
  singlePayload (selectedDate st) = true ->
  Forall (fun v => valueEffect v (fst (step p st c)) = fst (step p st c))
    (valuesChanged (snd (step p st c))).
Proof.
  intros Hs.
  destruct p as [md dv vl hasReset].
  destruct st as [sd cm io vw rm rs re rh].
  cbv beta iota delta [selectedDate] in Hs.
  destruct c as [day | day | now | now | | now y m | b | | o | v];
    try (handler; constructor; fail).
  - destruct rm; [| handler; repeat constructor].
    destruct rs as [s |], re as [e |]; handler; try (constructor; fail).
    destruct (isAfter day s); handler; repeat constructor.
  - destruct rm, rs, re; handler; constructor.
  - destruct md; handler; try (constructor; fail).
    destruct b.
    + destruct rs as [s |], re as [e |]; handler; repeat constructor.
    + destruct sd as [[d | r] |]; try discriminate; handler; repeat constructor.
  - destruct hasReset; [| handler; constructor].
    destruct rm; handler; repeat constructor.
Qed.

Lemma echoed_value_leaves_state_witness :
  let st := fst (fireAll rangePickerOpened [Click (newDate 2024 2 10)]) in
  let v := Some (ofRange {| from := holds (Some (newDate 2024 2 5));
                            to := holds (Some (newDate 2024 2 10)) |}) in
  valuesChanged (snd (step rangePicker st (SelectDay (newDate 2024 2 5)))) = [v]
  /\ valueEffect v (fst (step rangePicker st (SelectDay (newDate 2024 2 5))))
     = fst (step rangePicker st (SelectDay (newDate 2024 2 5))).
Proof.
  intros st v.
  pose proof (echoed_value_leaves_state rangePicker st
                (SelectDay (newDate 2024 2 5)) eq_refl) as H.
  split; [reflexivity |].
  inversion H as [| v' l Hv _]. exact Hv.
Defined.

(** X15. What the effect does with a range-shaped [value]: without a
    [from] key the value is ignored, even when it holds a [to]; with a [from]
    key the start and the end of the range become exactly [value.from] and
    [value.to], so that a value with a start only clears a committed end.
    Nothing else is written, and running the effect twice is as running it
    once. *)
Theorem valueEffect_range_value (v : option DateValue) (r : DateRangeValue) (st : State) :
  (from r = absent -> valueEffect (Some (ofRange r)) st = st)
  /\ (forall f, from r = holds f ->
        rangeStart (valueEffect (Some (ofRange r)) st) = f
        /\ rangeEnd (valueEffect (Some (ofRange r)) st) = read (to r))
  /\ valueEffect v (valueEffect v st) = valueEffect v st
  /\ selectedDate (valueEffect v st) = selectedDate st
  /\ currentMonth (valueEffect v st) = currentMonth st
  /\ isRangeMode (valueEffect v st) = isRangeMode st
  /\ rangeHover (valueEffect v st) = rangeHover st
  /\ isOpen (valueEffect v st) = isOpen st
  /\ view (valueEffect v st) = view st.
Proof.
  destruct st as [sd cm io vw rm rs re rh].
  split; [| split].
  - intros H. unfold valueEffect, has_from. cbn [typeof]. rewrite H. reflexivity.
  - intros f H. unfold valueEffect, has_from, get_from, get_to.
    cbn [typeof]. rewrite H. split; reflexivity.
  - destruct v as [[d | [[| f] t]] |]; repeat split.
Qed.

(** ** The trigger and the Clear button *)

(** X16. The trigger is greyed exactly when its text is the placeholder:
    when it is greyed the text is the caller's placeholder, or, when that is
    absent or empty, ["Pick a date"] or ["Pick a date range"] by mode; when
    it is not, the text is the formatted single value or the formatted start
    of the range followed by its end or by a question mark. *)
Theorem trigger_is_muted_when_it_shows_placeholder
    (format : Date -> String.string -> String.string) (now : Date)
    (placeholder : option String.string) (st : State) :
  (triggerMuted st = true ->
     formatDisplayText format now placeholder st = placeholderText placeholder st)
  /\ (triggerMuted st = false -> isRangeMode st = false ->
        exists v, selectedDate st = Some v
          /\ formatDisplayText format now placeholder st
             = format (cursor now v) "PPP"%string)
  /\ (triggerMuted st = false -> isRangeMode st = true ->
        exists s, rangeStart st = Some s
          /\ formatDisplayText format now placeholder st
             = String.append (format s "PP"%string)
                 (match rangeEnd st with
                  | Some e => String.append " - "%string (format e "PP"%string)
                  | None => " - ?"%string
                  end))
  /\ (forall text, text <> String.EmptyString ->
        placeholderText (Some text) st = text)
  /\ placeholderText (Some String.EmptyString) st = placeholderText None st
  /\ placeholderText None st =
       (if isRangeMode st then "Pick a date range"%string
        else "Pick a date"%string).
Proof.
  destruct st as [sd cm io vw rm rs re rh].
  unfold triggerMuted, formatDisplayText, placeholderText.
  cbv beta iota delta [isRangeMode selectedDate rangeStart rangeEnd].
  split; [| split; [| split; [| split; [| split]]]].
  - destruct rm, sd, rs, re; cbn [negb andb orb truthy];
      intros H; try discriminate; reflexivity.
  - intros H Hm. subst rm. destruct sd as [v |]; cbn [negb andb orb truthy] in H;
      try discriminate. exists v. split; reflexivity.
  - intros H Hm. subst rm. destruct rs as [s |]; cbn [negb andb orb truthy] in H;
      try discriminate. exists s. split; [reflexivity |].
    destruct re; reflexivity.
  - intros text H. destruct text; [contradiction | reflexivity].
  - reflexivity.
  - destruct rm; reflexivity.
Qed.

Lemma trigger_is_muted_when_it_shows_placeholder_witness :
  formatDisplayText (fun _ pattern => pattern) (newDate 2024 2 1)
    (Some String.EmptyString) rangePickerOpened
  = "Pick a date range"%string
  /\ formatDisplayText (fun _ pattern => pattern) (newDate 2024 2 1) None
       (fst (fireAll rangePickerOpened [Click (newDate 2024 2 10)]))
     = "PP - ?"%string.
Proof.
  destruct (trigger_is_muted_when_it_shows_placeholder
              (fun _ pattern => pattern) (newDate 2024 2 1)
              (Some String.EmptyString) rangePickerOpened) as (H1 & _).
  destruct (trigger_is_muted_when_it_shows_placeholder
              (fun _ pattern => pattern) (newDate 2024 2 1) None
              (fst (fireAll rangePickerOpened [Click (newDate 2024 2 10)])))
    as (_ & _ & H3 & _).
  split.
  - rewrite (H1 eq_refl). reflexivity.
  - destruct (H3 eq_refl eq_refl) as (s & Hs & Ht). rewrite Ht.
    reflexivity.
Defined.

(** ** The cells of the grid and the clicks on them *)

Lemma Day_newDate (year month day : Z) :
  Day (newDate year month day) = Day (newDate year month 1) + (day - 1)
  /\ TimeWithinDay (newDate year month day) = 0.
Proof.
  unfold newDate. cbv zeta.
  rewrite !Day_MakeDate by (unfold msPerDay; lia).
  rewrite TimeWithinDay_MakeDate by (unfold msPerDay; lia).
  unfold MakeDay. lia.
Qed.

Lemma newDate_days_apart (year month day : Z) :
  newDate year month day = newDate year month 1 + (day - 1) * msPerDay.
Proof. unfold newDate, MakeDate, MakeDay. cbv zeta. lia. Qed.

Lemma In_daysFrom (x lo : Z) (n : nat) :
  In x (daysFrom lo n) <-> lo <= x < lo + Z.of_nat n.
Proof.
  revert lo. induction n as [| n IH]; intros lo; cbn [daysFrom In].
  - lia.
  - rewrite IH. lia.
Qed.

(** The day cells of the grid are the dates [new Date(year, month, day)]
    for the days of the month. *)
Lemma day_cell_of_grid (now : Date) (currentMonth : DateValue) (cell : Date) :
  In (Some cell) (calendarDays now currentMonth) <->
  exists day,
    1 <= day <= daysOfMonth (getFullYear (cursor now currentMonth))
                            (getMonth (cursor now currentMonth))
    /\ cell = newDate (getFullYear (cursor now currentMonth))
                      (getMonth (cursor now currentMonth)) day.
Proof.
  pose proof (daysOfMonth_range (getFullYear (cursor now currentMonth))
                (getMonth (cursor now currentMonth))) as HN.
  rewrite calendarDays_cells, in_app_iff, in_map_iff. split.
  - intros [H | (day & E & H)].
    + apply repeat_spec in H. discriminate.
    + apply In_daysFrom in H. exists day. split; [lia | congruence].
  - intros (day & Hd & E). right. exists day. split; [congruence |].
    apply In_daysFrom. lia.
Qed.

Lemma grid_cells_same_day (now : Date) (currentMonth : DateValue) (c1 c2 : Date) :
  In (Some c1) (calendarDays now currentMonth) ->
  In (Some c2) (calendarDays now currentMonth) ->
  (isSameDay c1 c2 = true <-> c1 = c2).
Proof.
  intros H1 H2.
  destruct (proj1 (day_cell_of_grid now currentMonth c1) H1) as (d1 & _ & E1).
  destruct (proj1 (day_cell_of_grid now currentMonth c2) H2) as (d2 & _ & E2).
  clear H1 H2. revert E1 E2.
  generalize (getFullYear (cursor now currentMonth)),
    (getMonth (cursor now currentMonth)).
  intros year month E1 E2. subst c1 c2.
  rewrite isSameDay_Day, Z.eqb_eq.
  rewrite (proj1 (Day_newDate year month d1)).
  rewrite (proj1 (Day_newDate year month d2)).
  rewrite (newDate_days_apart year month d1).
  rewrite (newDate_days_apart year month d2).
  generalize (newDate year month 1). intros base.
  generalize (Day base). intros dbase.
  unfold msPerDay. split; intros H.
  - assert (E : d1 = d2) by lia. rewrite E. reflexivity.
  - lia.
Qed.

(** X18. The day cells of a grid are the local midnights of consecutive
    days: each cell is exactly one day after the one before it, so the cells
    are in increasing order and no two of them fall on the same day. *)
Theorem grid_cells_are_consecutive_midnights (now : Date) (currentMonth : DateValue) :
  let year := getFullYear (cursor now currentMonth) in
  let month := getMonth (cursor now currentMonth) in
  let w := Z.to_nat (JsDate.getDay (firstOfMonth (cursor now currentMonth))) in
  let N := Z.to_nat (daysOfMonth year month) in
  (forall k, (k < N)%nat ->
     nth_error (calendarDays now currentMonth) (w + k)
       = Some (Some (newDate year month 1 + Z.of_nat k * msPerDay))
     /\ TimeWithinDay (newDate year month 1 + Z.of_nat k * msPerDay) = 0)
  /\ (forall c1 c2,
        In (Some c1) (calendarDays now currentMonth) ->
        In (Some c2) (calendarDays now currentMonth) ->
        (isSameDay c1 c2 = true <-> c1 = c2)).
Proof.
  cbv zeta. split.
  - intros k Hk.
    rewrite (calendarDays_nth now currentMonth k Hk).
    generalize (getFullYear (cursor now currentMonth)),
      (getMonth (cursor now currentMonth)).
    intros year month.
    rewrite (newDate_days_apart year month (1 + Z.of_nat k)).
    replace (1 + Z.of_nat k - 1) with (Z.of_nat k) by lia.
    split; [reflexivity |].
    replace (Z.of_nat k) with (1 + Z.of_nat k - 1) by lia.
    rewrite <- (newDate_days_apart year month (1 + Z.of_nat k)).
    exact (proj2 (Day_newDate year month (1 + Z.of_nat k))).
  - intros c1 c2. apply grid_cells_same_day.
Qed.

Lemma handleSelect_single (st : State) (day : Date) :
  isRangeMode st = false ->
  handleSelect st day =
    ({| selectedDate := Some (ofDate day); currentMonth := ofDate day;
        isOpen := false; view := view st; isRangeMode := false;
        rangeStart := rangeStart st; rangeEnd := rangeEnd st;
        rangeHover := rangeHover st |},
     [call_onValueChange (Some (ofDate day))]).
Proof.
  intros Hm. unfold handleSelect. cells st. rewrite Hm. exec. reflexivity.
Qed.

(** A day cell of the grid carries the year and the month of the cursor,
    for a cursor outside the years 0 to 99. *)
Lemma day_cell_fields (now : Date) (currentMonth : DateValue) (cell : Date) :
  In (Some cell) (calendarDays now currentMonth) ->
  getFullYear (cursor now currentMonth) < 0
  \/ 99 < getFullYear (cursor now currentMonth) ->
  getFullYear cell = getFullYear (cursor now currentMonth)
  /\ getMonth cell = getMonth (cursor now currentMonth).
Proof.
  intros Hin Hy.
  destruct (proj1 (day_cell_of_grid now currentMonth cell) Hin) as (d & Hd & E).
  destruct (newDate_fields (getFullYear (cursor now currentMonth))
              (getMonth (cursor now currentMonth)) d
              (getMonth_range (cursor now currentMonth)) Hd Hy) as (F1 & F2 & _).
  rewrite E. split; [exact F1 | exact F2].
Qed.

(** X19. A click on a day cell of the grid never changes the grid that is
    drawn.  In single mode the calendar moves to the clicked day, which is in
    the month drawn, the day becomes the single value, is passed to
    [onValueChange], the panel closes, and of all the cells of the grid the
    clicked one alone is highlighted as selected.  In range mode the
    calendar is not moved at all, and after the first click of a selection
    the clicked cell alone is marked as the start of the range and no cell
    as its end.  (The cursor is taken outside the years 0 to 99.) *)
Theorem click_on_grid_cell_keeps_grid (now now' : Date) (st : State) (cell : Date) :
  In (Some cell) (calendarDays now (currentMonth st)) ->
  getFullYear (cursor now (currentMonth st)) < 0
  \/ 99 < getFullYear (cursor now (currentMonth st)) ->
  (isRangeMode st = false ->
     calendarDays now' (currentMonth (fst (handleSelect st cell)))
       = calendarDays now (currentMonth st)
     /\ selectedDate (fst (handleSelect st cell)) = Some (ofDate cell)
     /\ snd (handleSelect st cell) = [call_onValueChange (Some (ofDate cell))]
     /\ isOpen (fst (handleSelect st cell)) = false
     /\ (forall c, In (Some c) (calendarDays now (currentMonth st)) ->
           (isSelectedDay now' (fst (handleSelect st cell)) c = true <-> c = cell)))
  /\ (isRangeMode st = true ->
        currentMonth (fst (handleSelect st cell)) = currentMonth st
        /\ (emptyOrComplete st ->
            forall c, In (Some c) (calendarDays now (currentMonth st)) ->
              (isRangeStart (fst (handleSelect st cell)) c = true <-> c = cell)
              /\ isRangeEnd (fst (handleSelect st cell)) c = false)).
Proof.
  intros Hin Hy. split.
  - intros Hm. rewrite (handleSelect_single st cell Hm).
    cbn [fst snd currentMonth selectedDate isOpen].
    destruct (day_cell_fields now (currentMonth st) cell Hin Hy) as [F1 F2].
    split; [apply calendarDays_same_month; cbn [cursor]; [exact F1 | exact F2] |].
    split; [reflexivity |]. split; [reflexivity |]. split; [reflexivity |].
    intros c Hc. unfold isSelectedDay.
    cbn [isRangeMode selectedDate negb andb cursor].
    apply (grid_cells_same_day now (currentMonth st) c cell Hc Hin).
  - intros Hm. split.
    + unfold handleSelect. rewrite Hm. cbn [negb].
      destruct st as [sd cm io vw rm rs re rh].
      cbv beta iota delta [rangeStart rangeEnd].
      destruct rs as [s |], re as [e |]; exec; try reflexivity.
      destruct (isAfter cell s); exec; reflexivity.
    + intros He c Hc. rewrite (handleSelect_first st cell Hm He).
      unfold isRangeStart, isRangeEnd.
      cbn [fst isRangeMode rangeStart rangeEnd negb orb truthy].
      split; [| reflexivity].
      apply (grid_cells_same_day now (currentMonth st) c cell Hc Hin).
Qed.

Lemma click_on_grid_cell_keeps_grid_witness :
  let st := fst (onOpenChange (mounted singlePicker (newDate 2024 2 1 + 1000)) true) in
  let cell := newDate 2024 2 10 in
  calendarDays (newDate 2024 5 1)
    (currentMonth (fst (handleSelect st cell)))
  = calendarDays (newDate 2024 2 1 + 1000) (currentMonth st)
  /\ selectedDate (fst (handleSelect st cell)) = Some (ofDate cell)
  /\ isSelectedDay (newDate 2024 5 1) (fst (handleSelect st cell)) cell = true
  /\ isSelectedDay (newDate 2024 5 1) (fst (handleSelect st cell))
       (newDate 2024 2 11) = false.
Proof.
  intros st cell.
  assert (Hin : In (Some cell) (calendarDays (newDate 2024 2 1 + 1000) (currentMonth st))).
  { apply (proj2 (day_cell_of_grid (newDate 2024 2 1 + 1000) (currentMonth st) cell)).
    exists 10. split; [vm_compute; split; discriminate |].
    vm_compute. reflexivity. }
  destruct (click_on_grid_cell_keeps_grid (newDate 2024 2 1 + 1000)
              (newDate 2024 5 1) st cell Hin) as [S _].
  - right. vm_compute. reflexivity.
  - destruct (S eq_refl) as (G & Sel & _ & _ & Hl).
    split; [exact G |]. split; [exact Sel |].
    split; [apply (Hl cell Hin); reflexivity | reflexivity].
Defined.

(** June 2030 is picked in the years view while the calendar is on
    29 February 2024. *)
Lemma handleMonthSelect_lands_on_month_witness :
  let st :=
    fst (steps singlePicker (mounted singlePicker (newDate 2024 1 29))
           [OpenChange true; ToggleView]) in
  let st' := fst (handleMonthSelect (newDate 2024 1 29) st 2030 5) in
  view st = years
  /\ view st' = days
  /\ exists cur',
       currentMonth st' = ofDate cur'
       /\ getFullYear cur' = 2030 /\ getMonth cur' = 5.
Proof.
  intros st st'.
  destruct (handleMonthSelect_lands_on_month (newDate 2024 1 29) st 2030 5)
    as (cur' & H1 & H2 & H3 & _ & _ & H6 & _).
  - lia.
  - split; [reflexivity |]. split; [exact H6 |].
    exists cur'. split; [exact H1 |]. split; [exact H2 | exact H3].
Defined.

(** ** The Clear button *)




